(** * Support agent system: routing, gated tools and the session loop

    A shallow embedding of [support_system.py].  Python strings are modelled
    as [string], one [ascii] per code point below 256; an object reference is
    an address into a store of [UserContext] objects; a method is a function
    in a state-and-exception monad over that store and a chronological log of
    what the program did.  The language-model call is an oracle: a function
    from the prompt to the text it answers or the exception it raises. *)

From Stdlib Require Import String Ascii List Bool Arith PeanoNat Lia.
Import ListNotations.
Open Scope list_scope.
Open Scope string_scope.

(** ** Python string operations *)

(** [str.isspace] on one code point of the Latin-1 range: TAB..CR, FS..US,
    SPACE, NEL and NBSP. *)
Definition isspace (c : ascii) : bool :=
let n := nat_of_ascii c in
(((9 <=? n) && (n <=? 13)) || ((28 <=? n) && (n <=? 32)) || (n =? 133) || (n =? 160))%nat.

Fixpoint lstrip (s : string) : string :=
match s with
| EmptyString => EmptyString
| String c s' => if isspace c then lstrip s' else s
end.

Fixpoint rstrip (s : string) : string :=
match s with
| EmptyString => EmptyString
| String c s' =>
    match rstrip s' with
    | EmptyString => if isspace c then EmptyString else String c EmptyString
    | r => String c r
    end
end.

(** [s.strip()] *)
Definition strip (s : string) : string := lstrip (rstrip s).

(** [str.lower] on one code point of the Latin-1 range: A..Z and the
    accented capitals (all of 192..222 but the multiplication sign). *)
Definition lower_char (c : ascii) : ascii :=
let n := nat_of_ascii c in
if (((65 <=? n) && (n <=? 90)) || ((192 <=? n) && (n <=? 222) && negb (n =? 215)))%nat
then ascii_of_nat (n + 32) else c.

(** [s.lower()] *)
Fixpoint lower (s : string) : string :=
match s with
| EmptyString => EmptyString
| String c s' => String (lower_char c) (lower s')
end.

(** [s.startswith(p)] *)
Definition startswith (s p : string) : bool := String.prefix p s.

(** [s.split(sep)] for a one-character separator: the pieces between the
    separators, in order; never the empty list. *)
Fixpoint split (sep : ascii) (s : string) : list string :=
match s with
| EmptyString => [EmptyString]
| String c s' =>
    if Ascii.eqb c sep then EmptyString :: split sep s'
    else match split sep s' with
         | piece :: pieces => String c piece :: pieces
         | [] => [String c EmptyString]
         end
end.

(** [sep.join(l)] *)
Definition join (sep : string) (l : list string) : string := String.concat sep l.

(** [x in l] for a list of strings *)
Definition str_in (x : string) (l : list string) : bool := existsb (String.eqb x) l.

Definition colon : ascii := ":"%char.
Definition dquote : string := String (ascii_of_nat 34) EmptyString.
Definition nl : string := String (ascii_of_nat 10) EmptyString.

(** ** Exceptions, the store and the monad *)

(** An instance of a subclass of [Exception]: its class name and [str(e)]. *)
Record exn := mk_exn { exc_class : string; exc_str : string }.

Inductive result (A : Type) : Type :=
| Return (a : A)
| Raise (e : exn).
Arguments Return {A} a.
Arguments Raise {A} e.

(** The language-model call: [GenerativeModel(..).generate_content(prompt).text],
    which answers a text or raises. *)
Definition classifier := string -> result string.

Module UserContext.
Record t := mk {
  name : string;
  is_premium_user : bool;
  issue_type : option string;
  previous_queries : list string }.
(** [UserContext()] with the field defaults of the class. *)
Definition default : t := mk "Guest" false None [].
Definition set_name (v : string) (c : t) : t :=
  mk v (is_premium_user c) (issue_type c) (previous_queries c).
Definition set_is_premium_user (v : bool) (c : t) : t :=
  mk (name c) v (issue_type c) (previous_queries c).
Definition set_issue_type (v : option string) (c : t) : t :=
  mk (name c) (is_premium_user c) v (previous_queries c).
Definition append_previous_queries (q : string) (c : t) : t :=
  mk (name c) (is_premium_user c) (issue_type c) (previous_queries c ++ [q])%list.
End UserContext.

Inductive IssueType := BILLING | TECHNICAL | GENERAL.

Definition value (it : IssueType) : string :=
match it with
| BILLING => "billing"
| TECHNICAL => "technical"
| GENERAL => "general"
end.

(** Iterating the enum class yields its members in definition order. *)
Definition IssueType_members : list IssueType := [BILLING; TECHNICAL; GENERAL].

(** The keys of [SupportSystem.agents]. *)
Inductive agent_key := triage | billing | technical | general.

Definition agent_key_eqb (a b : agent_key) : bool :=
match a, b with
| triage, triage | billing, billing | technical, technical | general, general => true
| _, _ => false
end.

(** What [start] prints, without the decorations of the lines. *)
Inductive output :=
| Welcome
| Goodbye
| AgentSays (agent_name : string) (text : string)
| AnyOtherQuestions
| HelpFurther
| Summary (user : string) (premium : bool) (issue : option string) (queries_handled : nat).

(** The log: the lines printed, and, as ghost events, each entry into a
    [process_query] and each run of a tool function. *)
Inductive event :=
| Printed (o : output)
| Entered (a : agent_key) (query : string)
| ToolRun (tool : string) (query : string).

Definition ref := nat.

Record world := mk_world {
  heap : ref -> UserContext.t;
  fresh : ref;
  log : list event }.

Definition M (A : Type) : Type := world -> result A * world.

Definition ret {A} (a : A) : M A := fun w => (Return a, w).

Definition bind {A B} (m : M A) (k : A -> M B) : M B :=
fun w => match m w with
         | (Return a, w') => k a w'
         | (Raise e, w') => (Raise e, w')
         end.

Definition raise {A} (e : exn) : M A := fun w => (Raise e, w).

(** [try: body except Exception as e: handler]; what [body] did to the
    store before it raised stays done. *)
Definition try_except {A} (body : M A) (handler : exn -> M A) : M A :=
fun w => match body w with
         | (Return a, w') => (Return a, w')
         | (Raise e, w') => handler e w'
         end.

Notation "x <- m ;; k" := (bind m (fun x => k))
  (at level 61, m at next level, right associativity).
Notation "m ;;; k" := (bind m (fun _ => k))
  (at level 61, right associativity).

Definition emit (e : event) : M unit :=
fun w => (Return tt, mk_world (heap w) (fresh w) (log w ++ [e])%list).

Definition print (o : output) : M unit := emit (Printed o).

Definition load (r : ref) : M UserContext.t := fun w => (Return (heap w r), w).

Definition update (r : ref) (f : UserContext.t -> UserContext.t) : M unit :=
fun w => (Return tt,
          mk_world (fun r' => if Nat.eqb r' r then f (heap w r') else heap w r')
                   (fresh w) (log w)).

Definition alloc (c : UserContext.t) : M ref :=
fun w => (Return (fresh w),
          mk_world (fun r' => if Nat.eqb r' (fresh w) then c else heap w r')
                   (S (fresh w)) (log w)).

(** The oracle lifted into the monad. *)
Definition generate_content (generate : classifier) (prompt : string) : M string :=
fun w => (generate prompt, w).

(** [l[i]], with [IndexError] out of range. *)
Definition index {A} (l : list A) (i : nat) : M A :=
match nth_error l i with
| Some a => ret a
| None => raise (mk_exn "IndexError" "list index out of range")
end.

(** ** Agents *)

Module SupportAgent.
Record t := mk {
  name : string;
  description : string;
  context : option ref }.
(** [SupportAgent.__init__] *)
Definition init (name description : string) : t := mk name description None.
(** [set_context] *)
Definition set_context (r : ref) (self : t) : t :=
  mk (name self) (description self) (Some r).
End SupportAgent.

(** The dictionary [process_query] of the triage agent returns. *)
Record handoff := mk_handoff { issue_type : string; message : string }.

Module TriageAgent.

Definition init : SupportAgent.t :=
SupportAgent.init "Triage Agent" "Routes user queries to the appropriate specialized agent".

Definition prompt (query : string) : string :=
nl ++ "        Analyze the following user query and determine the most appropriate category:" ++
nl ++ "        " ++ dquote ++ query ++ dquote ++
nl ++ "        " ++
nl ++ "        Categories:" ++
nl ++ "        - billing: Issues related to payments, refunds, subscriptions, invoices" ++
nl ++ "        - technical: Problems with service, bugs, errors, functionality issues" ++
nl ++ "        - general: Other inquiries, account questions, general information" ++
nl ++ "        " ++
nl ++ "        Respond with ONLY the category name (billing, technical, or general)." ++
nl ++ "        ".

Definition process_query (self : SupportAgent.t) (generate : classifier)
  (query : string) : M handoff :=
emit (Entered triage query) ;;;
issue_type <-
  try_except
    (text <- generate_content generate (prompt query) ;;
     let issue_type := lower (strip text) in
     if negb (str_in issue_type (map value IssueType_members))
     then ret (value GENERAL)
     else ret issue_type)
    (fun _ => ret (value GENERAL)) ;;
match SupportAgent.context self with
| Some r =>
    update r (UserContext.set_issue_type (Some issue_type)) ;;;
    update r (UserContext.append_previous_queries query)
| None => ret tt
end ;;;
ret (mk_handoff issue_type
       ("Your query has been categorized as: " ++ issue_type ++
        ". Transferring you to the " ++ issue_type ++ " specialist.")).

End TriageAgent.

(** ** Tool registries *)

(** One entry of [self.tools]: the bound method and its description. *)
Record tool := mk_tool { function : string -> M string; description : string }.

(** A dictionary with string keys, in insertion order. *)
Definition dict (V : Type) : Type := list (string * V).

(** [k in d] *)
Definition dict_contains {V} (k : string) (d : dict V) : bool :=
existsb (fun kv => String.eqb k (fst kv)) d.

(** [d[k]], with [KeyError] for an absent key. *)
Fixpoint dict_get {V} (k : string) (d : dict V) : M V :=
match d with
| [] => raise (mk_exn "KeyError" k)
| (k', v) :: d' => if String.eqb k k' then ret v else dict_get k d'
end.

(** [list(d.keys())] *)
Definition keys {V} (d : dict V) : list string := map fst d.

(** The loop of [get_available_tools]: the names of [items] that
    [is_tool_enabled] accepts, appended in order. *)
Fixpoint collect_enabled (is_tool_enabled : string -> M bool) (items : dict tool)
  (available_tools : list string) : M (list string) :=
match items with
| [] => ret available_tools
| (tool_name, _) :: items' =>
    enabled <- is_tool_enabled tool_name ;;
    collect_enabled is_tool_enabled items'
      (if enabled then (available_tools ++ [tool_name])%list else available_tools)
end.

(** [response_text.split(":")[1].strip()] *)
Definition tool_name_of (response_text : string) : M string :=
piece <- index (split colon response_text) 1 ;;
ret (strip piece).

(** The prompt the three specialists build, up to the two words that differ. *)
Definition specialist_prompt (role inquiry query : string) (available_tools : list string)
  : string :=
nl ++ "        You are a " ++ role ++ " support agent. Based on the user query: " ++
      dquote ++ query ++ dquote ++
nl ++ "        " ++
nl ++ "        Available tools: " ++ join ", " available_tools ++
nl ++ "        " ++
nl ++ "        Determine the most appropriate tool to use or provide a general response." ++
nl ++ "        If using a tool, respond with: TOOL:<tool_name>" ++
nl ++ "        Otherwise, provide a helpful response to the user's " ++ inquiry ++ "." ++
nl ++ "        ".

Module BillingAgent.

Definition init : SupportAgent.t :=
SupportAgent.init "Billing Agent"
  "Handles billing-related inquiries including refunds and payments".

Definition refund_text : string :=
"Your refund has been processed successfully. It will reflect in your account within 5-7 business days.".

Definition process_refund (query : string) : M string :=
emit (ToolRun "process_refund" query) ;;;
ret refund_text.

Definition explain_charges (query : string) : M string :=
emit (ToolRun "explain_charges" query) ;;;
ret "Your recent charge of $49.99 is for your monthly subscription. This includes access to all premium features.".

Definition update_subscription (query : string) : M string :=
emit (ToolRun "update_subscription" query) ;;;
ret "Your subscription has been updated successfully. Your new plan will take effect in the next billing cycle.".

Definition tools : dict tool :=
[ ("process_refund", mk_tool process_refund "Process a refund for the user");
  ("explain_charges", mk_tool explain_charges "Explain recent charges on the user's account");
  ("update_subscription", mk_tool update_subscription "Update the user's subscription plan") ].

(** [self.context and self.context.is_premium_user], as a truth value: a
    [UserContext] object is always true. *)
Definition is_tool_enabled (self : SupportAgent.t) (tool_name : string) : M bool :=
if String.eqb tool_name "process_refund" then
  match SupportAgent.context self with
  | Some r => c <- load r ;; ret (UserContext.is_premium_user c)
  | None => ret false
  end
else ret true.

Definition get_available_tools (self : SupportAgent.t) : M (list string) :=
collect_enabled (is_tool_enabled self) tools [].

Definition prompt : string -> list string -> string :=
specialist_prompt "billing" "billing inquiry".

Definition refusal : string :=
"I'm sorry, that action is not available for your account.".

Definition apology : string :=
"I apologize, I encountered an error processing your billing request: ".

Definition process_query (self : SupportAgent.t) (generate : classifier)
  (query : string) : M string :=
emit (Entered billing query) ;;;
available_tools <- get_available_tools self ;;
try_except
  (text <- generate_content generate (prompt query available_tools) ;;
   let response_text := strip text in
   if startswith response_text "TOOL:" then
     tool_name <- tool_name_of response_text ;;
     usable <- (if dict_contains tool_name tools
                then is_tool_enabled self tool_name else ret false) ;;
     if usable then
       entry <- dict_get tool_name tools ;;
       tool_response <- function entry query ;;
       ret ("Used " ++ tool_name ++ ": " ++ tool_response)
     else ret refusal
   else ret response_text)
  (fun e => ret (apology ++ exc_str e)).

End BillingAgent.

Module TechnicalAgent.

Definition init : SupportAgent.t :=
SupportAgent.init "Technical Agent"
  "Handles technical support issues and service problems".

Definition restart_text : string :=
"The service has been restarted successfully. Please allow a few minutes for it to become fully operational.".

Definition restart_service (query : string) : M string :=
emit (ToolRun "restart_service" query) ;;;
ret restart_text.

Definition reset_password (query : string) : M string :=
emit (ToolRun "reset_password" query) ;;;
ret "A password reset link has been sent to your email. Please check your inbox and follow the instructions.".

Definition check_status (query : string) : M string :=
emit (ToolRun "check_status" query) ;;;
ret "All systems are operational. No outages reported at this time.".

Definition tools : dict tool :=
[ ("restart_service", mk_tool restart_service "Restart a service for the user");
  ("reset_password", mk_tool reset_password "Reset the user's password");
  ("check_status", mk_tool check_status "Check the status of services") ].

(** [self.context.issue_type == IssueType.TECHNICAL.value] *)
Definition is_technical (issue_type : option string) : bool :=
match issue_type with
| Some t => String.eqb t (value TECHNICAL)
| None => false
end.

Definition is_tool_enabled (self : SupportAgent.t) (tool_name : string) : M bool :=
if String.eqb tool_name "restart_service" then
  match SupportAgent.context self with
  | Some r => c <- load r ;; ret (is_technical (UserContext.issue_type c))
  | None => ret false
  end
else ret true.

Definition get_available_tools (self : SupportAgent.t) : M (list string) :=
collect_enabled (is_tool_enabled self) tools [].

Definition prompt : string -> list string -> string :=
specialist_prompt "technical" "technical inquiry".

Definition refusal : string :=
"I'm sorry, that action is not available for your account or issue type.".

Definition apology : string :=
"I apologize, I encountered an error processing your technical request: ".

Definition process_query (self : SupportAgent.t) (generate : classifier)
  (query : string) : M string :=
emit (Entered technical query) ;;;
available_tools <- get_available_tools self ;;
try_except
  (text <- generate_content generate (prompt query available_tools) ;;
   let response_text := strip text in
   if startswith response_text "TOOL:" then
     tool_name <- tool_name_of response_text ;;
     usable <- (if dict_contains tool_name tools
                then is_tool_enabled self tool_name else ret false) ;;
     if usable then
       entry <- dict_get tool_name tools ;;
       tool_response <- function entry query ;;
       ret ("Used " ++ tool_name ++ ": " ++ tool_response)
     else ret refusal
   else ret response_text)
  (fun e => ret (apology ++ exc_str e)).

End TechnicalAgent.

Module GeneralAgent.

Definition init : SupportAgent.t :=
SupportAgent.init "General Agent"
  "Handles general inquiries and account questions".

Definition provide_info (query : string) : M string :=
emit (ToolRun "provide_info" query) ;;;
ret "Our company provides a range of services designed to meet your needs. For more specific information, please visit our website or contact our support team.".

Definition escalate_issue (query : string) : M string :=
emit (ToolRun "escalate_issue" query) ;;;
ret "Your issue has been escalated to a human representative. They will contact you within 24 hours.".

Definition tools : dict tool :=
[ ("provide_info", mk_tool provide_info "Provide general information about services");
  ("escalate_issue", mk_tool escalate_issue "Escalate the issue to a human representative") ].

Definition get_available_tools (self : SupportAgent.t) : M (list string) :=
ret (keys tools).

Definition prompt : string -> list string -> string :=
specialist_prompt "general" "general inquiry".

Definition refusal : string := "I'm sorry, that action is not available.".

Definition apology : string :=
"I apologize, I encountered an error processing your request: ".

Definition process_query (self : SupportAgent.t) (generate : classifier)
  (query : string) : M string :=
emit (Entered general query) ;;;
available_tools <- get_available_tools self ;;
try_except
  (text <- generate_content generate (prompt query available_tools) ;;
   let response_text := strip text in
   if startswith response_text "TOOL:" then
     tool_name <- tool_name_of response_text ;;
     if dict_contains tool_name tools then
       entry <- dict_get tool_name tools ;;
       tool_response <- function entry query ;;
       ret ("Used " ++ tool_name ++ ": " ++ tool_response)
     else ret refusal
   else ret response_text)
  (fun e => ret (apology ++ exc_str e)).

End GeneralAgent.

(** ** The support system and its session loop *)

Module SupportSystem.

(** All four agents hold the reference [context]: one shared object. *)
Record t := mk {
  agents : agent_key -> SupportAgent.t;
  current_agent : agent_key;
  context : ref }.

Definition set_current_agent (k : agent_key) (self : t) : t :=
mk (agents self) k (context self).

(** [for agent in self.agents.values(): agent.set_context(r)] *)
Definition set_context_all (r : ref) (self : t) : t :=
mk (fun k => SupportAgent.set_context r (agents self k)) (current_agent self) (context self).

(** The four agents as their constructors leave them. *)
Definition new_agents (k : agent_key) : SupportAgent.t :=
match k with
| triage => TriageAgent.init
| billing => BillingAgent.init
| technical => TechnicalAgent.init
| general => GeneralAgent.init
end.

(** [SupportSystem.__init__] *)
Definition init : M t :=
r <- alloc UserContext.default ;;
ret (set_context_all r (mk new_agents triage r)).

(** Lines 363-367. *)
Definition print_summary (self : t) : M unit :=
c <- load (context self) ;;
print (Summary (UserContext.name c) (UserContext.is_premium_user c)
         (UserContext.issue_type c) (length (UserContext.previous_queries c))).

End SupportSystem.

(** Where [start] is waiting: at the [input] of line 325, at the [input] of
    line 354, or returned. *)
Inductive pc := AtQuery | AtContinue | Returned.

Record session := mk_session { system : SupportSystem.t; at_pc : pc }.

(** The states of the controller as the specification names them. *)
Inductive controller_state :=
| AWAITING_TRIAGE | AWAITING_SPECIALIST | AWAITING_CONTINUE | ENDED.

Definition state_of (s : session) : controller_state :=
match at_pc s with
| AtQuery =>
    match SupportSystem.current_agent (system s) with
    | triage => AWAITING_TRIAGE
    | _ => AWAITING_SPECIALIST
    end
| AtContinue => AWAITING_CONTINUE
| Returned => ENDED
end.

(** [user_input.lower() in ['quit', 'exit', 'bye']] *)
Definition is_quit (user_input : string) : bool :=
str_in (lower user_input) ["quit"; "exit"; "bye"].

(** [continue_session in ['no', 'n', 'quit', 'exit']] *)
Definition is_no (continue_session : string) : bool :=
str_in continue_session ["no"; "n"; "quit"; "exit"].

(** The handoff of lines 342-347. *)
Definition handoff_target (issue_type : string) : agent_key :=
if String.eqb issue_type (value BILLING) then billing
else if String.eqb issue_type (value TECHNICAL) then technical
else general.

(** [agent.process_query(user_input)] for an agent bound to a specialist key. *)
Definition specialist_process_query (k : agent_key) (agent : SupportAgent.t)
  (generate : classifier) (user_input : string) : M string :=
match k with
| billing => BillingAgent.process_query agent generate user_input
| technical => TechnicalAgent.process_query agent generate user_input
| _ => GeneralAgent.process_query agent generate user_input
end.

(** [break], then the summary after the loop. *)
Definition leave (s : session) : M session :=
print Goodbye ;;;
SupportSystem.print_summary (system s) ;;;
ret (mk_session (system s) Returned).

(** One line read from the console by [start], from where it was waiting to
    where it waits next.  [generate] is what the classifier does if this
    turn calls it. *)
Definition step (generate : classifier) (line : string) (s : session) : M session :=
let self := system s in
match at_pc s with
| AtQuery =>
    let user_input := strip line in
    if is_quit user_input then leave s
    else
      let agent := SupportSystem.agents self (SupportSystem.current_agent self) in
      match SupportSystem.current_agent self with
      | triage =>
          result <- TriageAgent.process_query agent generate user_input ;;
          print (AgentSays (SupportAgent.name (SupportSystem.agents self triage))
                   (message result)) ;;;
          ret (mk_session
                 (SupportSystem.set_current_agent (handoff_target (issue_type result)) self)
                 AtQuery)
      | k =>
          response <- specialist_process_query k agent generate user_input ;;
          print (AgentSays (SupportAgent.name agent) response) ;;;
          print AnyOtherQuestions ;;;
          ret (mk_session self AtContinue)
      end
| AtContinue =>
    let continue_session := lower (strip line) in
    if is_no continue_session then leave s
    else print HelpFurther ;;; ret (mk_session self AtQuery)
| Returned => ret s
end.

(** A scripted turn: the line the user types and the classifier's behaviour
    during that turn.  [run] feeds a script to the loop; when the script runs
    out the session is left where it waits ([until_eof] adds what the end of
    the console's input does then). *)
Definition turn : Type := string * classifier.

Fixpoint run (turns : list turn) (s : session) : M session :=
match turns with
| [] => ret s
| (line, generate) :: turns' => s' <- step generate line s ;; run turns' s'
end.

(** [start]: the banner, then the loop waiting for its first line. *)
Definition start (self : SupportSystem.t) : M session :=
print Welcome ;;;
ret (mk_session self AtQuery).

(** The main block: a fresh system, the user set up in its context, the
    agents bound again, the session started. *)
Definition main (is_premium_user : bool) : M session :=
support_system <- SupportSystem.init ;;
update (SupportSystem.context support_system) (UserContext.set_name "Aamna") ;;;
update (SupportSystem.context support_system)
  (UserContext.set_is_premium_user is_premium_user) ;;;
start (SupportSystem.set_context_all (SupportSystem.context support_system) support_system).

Definition empty_world : world :=
mk_world (fun _ => UserContext.default) 0 [].

(** ** Vocabulary of the statements *)

(** The value a computation returns in [w], [default] if it raises. *)
Definition eval {A} (m : M A) (w : world) (default : A) : A :=
match fst (m w) with
| Return a => a
| Raise _ => default
end.

(** [w] with [evs] logged after what it had: same store, same objects. *)
Definition world_after (w : world) (evs : list event) : world :=
mk_world (heap w) (fresh w) (log w ++ evs)%list.

(** A computation that returns without touching the world. *)
Definition reads {A} (m : M A) : Prop := forall w, exists a, m w = (Return a, w).

(** Every entry of a registry runs the tool it is filed under: its function
    returns a text and logs one run under the entry's own key. *)
Definition runs_as_filed (d : dict tool) : Prop :=
forall n t, In (n, t) d ->
  forall q w, exists text, function t q w = (Return text, world_after w [ToolRun n q]).

(** The text before the first colon, all of it if there is none. *)
Fixpoint before_colon (s : string) : string :=
match s with
| EmptyString => EmptyString
| String c s' => if Ascii.eqb c colon then EmptyString else String c (before_colon s')
end.

(** The text after the first colon, empty if there is none. *)
Fixpoint after_first_colon (s : string) : string :=
match s with
| EmptyString => EmptyString
| String c s' => if Ascii.eqb c colon then s' else after_first_colon s'
end.

Fixpoint has_colon (s : string) : bool :=
match s with
| EmptyString => false
| String c s' => Ascii.eqb c colon || has_colon s'
end.

(** The number of queries the log shows entering the triage agent. *)
Fixpoint triaged (l : list event) : nat :=
match l with
| [] => 0
| Entered triage _ :: l' => S (triaged l')
| _ :: l' => triaged l'
end.

(** The query counts of the summaries the log shows printed. *)
Fixpoint summaries (l : list event) : list nat :=
match l with
| [] => []
| Printed (Summary _ _ _ n) :: l' => n :: summaries l'
| _ :: l' => summaries l'
end.

(** The tools the log shows run. *)
Fixpoint tool_runs (l : list event) : list string :=
match l with
| [] => []
| ToolRun n _ :: l' => n :: tool_runs l'
| _ :: l' => tool_runs l'
end.

(** The entries into agents the log shows, each with the query it got. *)
Fixpoint entries (l : list event) : list (agent_key * string) :=
match l with
| [] => []
| Entered a q :: l' => (a, q) :: entries l'
| _ :: l' => entries l'
end.

(** The lines of a script that are queries for the bound specialist, from
    where the loop waits: at the query prompt a quit word ends the reading
    and any other line, trimmed, is a query; at the prompt that asks whether
    to go on, a no-word ends the reading and any other answer is passed
    over. *)
Fixpoint handled (at_ : pc) (turns : list turn) : list string :=
match turns with
| [] => []
| (line, _) :: turns' =>
    match at_ with
    | AtQuery =>
        if is_quit (strip line) then []
        else strip line :: handled AtContinue turns'
    | AtContinue =>
        if is_no (lower (strip line)) then []
        else handled AtQuery turns'
    | Returned => []
    end
end.

(** The agents the log shows entered. *)
Fixpoint entered (l : list event) : list agent_key :=
match l with
| [] => []
| Entered a _ :: l' => a :: entered l'
| _ :: l' => entered l'
end.

(** The shape the three specialists' [process_query] share, over what
    differs between them. *)
Definition specialist_body (key : agent_key) (tools : dict tool)
  (is_tool_enabled : string -> M bool) (get_available_tools : M (list string))
  (prompt : string -> list string -> string) (refusal apology : string)
  (generate : classifier) (query : string) : M string :=
emit (Entered key query) ;;;
available_tools <- get_available_tools ;;
try_except
  (text <- generate_content generate (prompt query available_tools) ;;
   let response_text := strip text in
   if startswith response_text "TOOL:" then
     tool_name <- tool_name_of response_text ;;
     usable <- (if dict_contains tool_name tools
                then is_tool_enabled tool_name else ret false) ;;
     if usable then
       entry <- dict_get tool_name tools ;;
       tool_response <- function entry query ;;
       ret ("Used " ++ tool_name ++ ": " ++ tool_response)
     else ret refusal
   else ret response_text)
  (fun e => ret (apology ++ exc_str e)).

(** The registry, the gate and the refusal of the specialist behind a key. *)
Definition tools_of (k : agent_key) : dict tool :=
match k with
| billing => BillingAgent.tools
| technical => TechnicalAgent.tools
| _ => GeneralAgent.tools
end.

Definition is_tool_enabled_of (k : agent_key) (self : SupportAgent.t) (tool_name : string)
  : M bool :=
match k with
| billing => BillingAgent.is_tool_enabled self tool_name
| technical => TechnicalAgent.is_tool_enabled self tool_name
| _ => ret true
end.

Definition get_available_tools_of (k : agent_key) (self : SupportAgent.t) : M (list string) :=
match k with
| billing => BillingAgent.get_available_tools self
| technical => TechnicalAgent.get_available_tools self
| _ => GeneralAgent.get_available_tools self
end.

Definition prompt_of (k : agent_key) : string -> list string -> string :=
match k with
| billing => BillingAgent.prompt
| technical => TechnicalAgent.prompt
| _ => GeneralAgent.prompt
end.

Definition refusal_of (k : agent_key) : string :=
match k with
| billing => BillingAgent.refusal
| technical => TechnicalAgent.refusal
| _ => GeneralAgent.refusal
end.

Definition apology_of (k : agent_key) : string :=
match k with
| billing => BillingAgent.apology
| technical => TechnicalAgent.apology
| _ => GeneralAgent.apology
end.

(** What the classifier answers to the prompt the specialist behind [k]
    sends for [query] in [w]. *)
Definition answer_to (k : agent_key) (self : SupportAgent.t) (generate : classifier)
  (query : string) (w : world) : result string :=
generate (prompt_of k query (eval (get_available_tools_of k self) w [])).

(** The keys other than [triage]. *)
Definition is_specialist (k : agent_key) : bool := negb (agent_key_eqb k triage).

(** The handoff message for a category. *)
Definition handoff_message (category : string) : string :=
"Your query has been categorized as: " ++ category ++
". Transferring you to the " ++ category ++ " specialist.".

(** The summary [start] would print for the system in [w]. *)
Definition summary_line (self : SupportSystem.t) (w : world) : output :=
let c := heap w (SupportSystem.context self) in
Summary (UserContext.name c) (UserContext.is_premium_user c)
  (UserContext.issue_type c) (length (UserContext.previous_queries c)).

(** What the triage agent does to the context object it is bound to. *)
Definition triage_write (category query : string) (c : UserContext.t) : UserContext.t :=
UserContext.append_previous_queries query
  (UserContext.set_issue_type (Some category) c).

(** [r] is the object [self] is bound to. *)
Definition bound_to (self : SupportAgent.t) (r : ref) : bool :=
match SupportAgent.context self with
| Some r0 => Nat.eqb r r0
| None => false
end.

(** The session as the main block leaves it before the first line is read,
    from a world with an empty log. *)
Definition boot (is_premium_user : bool) (turns : list turn) : M session :=
s <- main is_premium_user ;; run turns s.


(** The count the session keeps agrees with the log: the triage agent is
    bound to the system's context object, that object holds as many prior
    queries as the log shows entering triage, and a summary has been printed,
    with that count, exactly when [start] has returned. *)
Definition counted (s : session) (w : world) : Prop :=
SupportAgent.context (SupportSystem.agents (system s) triage)
  = Some (SupportSystem.context (system s)) /\
length (UserContext.previous_queries (heap w (SupportSystem.context (system s))))
  = triaged (log w) /\
summaries (log w) = match at_pc s with
                    | Returned => [triaged (log w)]
                    | _ => []
                    end.

(** ** Sample inputs *)

(** A classifier whose call fails, and one that answers a fixed text. *)
Definition fails : classifier := fun _ => Raise (mk_exn "RuntimeError" "service unavailable").

Definition says (text : string) : classifier := fun _ => Return text.

(** An agent of a system: bound to the context object at address 0. *)
Definition bound (agent : SupportAgent.t) : SupportAgent.t := SupportAgent.set_context 0 agent.

(** A world whose object at address 0 is [c]. *)
Definition world_with (c : UserContext.t) : world := mk_world (fun _ => c) 1 [].

Definition premium_user : UserContext.t := UserContext.mk "Aamna" true (Some "billing") ["I was charged twice this month"].

Definition basic_user : UserContext.t := UserContext.mk "Aamna" false (Some "billing") ["I was charged twice this month"].

Definition technical_user : UserContext.t := UserContext.mk "Aamna" false (Some "technical") ["the service is down"].

(** A session waiting for its first line, its context object at address 0,
    and the same session bound to the billing specialist. *)
Definition first_session : session :=
mk_session (SupportSystem.set_context_all 0 (SupportSystem.mk SupportSystem.new_agents triage 0))
  AtQuery.

Definition billing_session : session :=
mk_session (SupportSystem.set_current_agent billing (system first_session)) AtQuery.

(** ** Vocabulary of the further properties *)

(** The category the context records once a session is bound to [k]. *)
Definition recorded_category (k : agent_key) : option string :=
match k with
| triage => None
| billing => Some (value BILLING)
| technical => Some (value TECHNICAL)
| general => Some (value GENERAL)
end.

(** The session's context agrees with how it was set up and where it is:
    every agent is bound to the system's context object, which holds the
    name and premium flag of the main block and the category of the
    specialist the session is bound to (none before the handoff). *)
Definition aligned (premium : bool) (s : session) (w : world) : Prop :=
let self := system s in
let c := heap w (SupportSystem.context self) in
(forall k, SupportAgent.context (SupportSystem.agents self k)
           = Some (SupportSystem.context self)) /\
UserContext.name c = "Aamna" /\
UserContext.is_premium_user c = premium /\
UserContext.issue_type c = recorded_category (SupportSystem.current_agent self).

(** One when the session still waits for its handoff, zero after it. *)
Definition pending (s : session) : nat :=
match SupportSystem.current_agent (system s) with
| triage => 1
| _ => 0
end.

(** The prompt the turn's classifier call gets, if the turn makes one: the
    triage prompt before the handoff, the bound specialist's after it, each
    built from the trimmed line. *)
Definition prompt_sent (s : session) (line : string) (w : world) : string :=
let k := SupportSystem.current_agent (system s) in
match k with
| triage => TriageAgent.prompt (strip line)
| _ => prompt_of k (strip line)
         (eval (get_available_tools_of k (SupportSystem.agents (system s) k)) w [])
end.

(** A session of three lines: a query, a request, and the answer to whether
    to go on. *)
Definition three_turns : list turn :=
[ ("I was charged twice this month", says "billing");
  ("refund please", says "TOOL:process_refund");
  ("yes, and one more thing", says "TOOL:explain_charges") ].

(** ** The end of the console's input *)



(** ** Proof steps *)

(** Settles [runs_as_filed] for a registry written out entry by entry. *)
Ltac filed :=
  let Hin := fresh "Hin" in
  intros ? ? Hin ? ?; simpl in Hin;
  repeat (destruct Hin as [Hin|Hin]; [inversion Hin; subst; eexists; reflexivity|]);
  contradiction.

(** * Properties *)

(** ** Strings *)

Lemma startswith_TOOL (s : string) :
  startswith s "TOOL:" = true -> exists rest, s = "TOOL:" ++ rest.
Proof.
unfold startswith.
intros H.
do 5 (destruct s as [|? s]; [discriminate H|];
      cbn [String.prefix] in H;
      match type of H with
      | context [ascii_dec ?a ?b] => destruct (ascii_dec a b); [subst|discriminate H]
      end).
exists s. reflexivity.
Qed.

Lemma split_before (s : string) :
  exists pieces, split colon s = before_colon s :: pieces.
Proof.
induction s as [|c s [pieces IH]]; simpl.
- now exists [].
- destruct (Ascii.eqb c colon).
  + eexists; reflexivity.
  + rewrite IH. eexists; reflexivity.
Qed.

Lemma split_at_colon (s : string) :
  has_colon s = true ->
  exists pieces,
    split colon s = before_colon s :: before_colon (after_first_colon s) :: pieces.
Proof.
induction s as [|c s IH]; simpl; [discriminate|].
destruct (Ascii.eqb c colon); simpl.
- intros _. destruct (split_before s) as [pieces E].
  exists pieces. now rewrite E.
- intros H. destruct (IH H) as [pieces E].
  exists pieces. now rewrite E.
Qed.

Lemma startswith_has_colon (s : string) :
  startswith s "TOOL:" = true -> has_colon s = true.
Proof.
intros H. destruct (startswith_TOOL s H) as [rest ->]. reflexivity.
Qed.

Lemma no_colon_before (s : string) : has_colon s = false -> before_colon s = s.
Proof.
induction s as [|c s IH]; simpl; [reflexivity|].
destruct (Ascii.eqb c colon); simpl; [discriminate|].
intros H. now rewrite IH.
Qed.

Lemma tool_name_of_colon (s : string) (w : world) :
  has_colon s = true ->
  tool_name_of s w = (Return (strip (before_colon (after_first_colon s))), w).
Proof.
intros H. unfold tool_name_of, index.
destruct (split_at_colon s H) as [pieces E]. rewrite E.
reflexivity.
Qed.

Lemma rstrip_cons (c : ascii) (s : string) :
  isspace c = false -> rstrip (String c s) = String c (rstrip s).
Proof.
intros H. simpl. destruct (rstrip s); now rewrite ?H.
Qed.

Lemma colon_eqb (c : ascii) : Ascii.eqb c colon = true -> isspace c = false.
Proof. intros H. apply Ascii.eqb_eq in H. now subst c. Qed.

Lemma rstrip_colon_nonempty (s : string) :
  has_colon s = true -> rstrip s <> EmptyString.
Proof.
induction s as [|c s IH]; [discriminate|].
cbn [has_colon]. destruct (Ascii.eqb c colon) eqn:E; cbn [orb].
- intros _. now rewrite (rstrip_cons c s (colon_eqb c E)).
- intros H. specialize (IH H). cbn [rstrip].
  destruct (rstrip s); [contradiction | discriminate].
Qed.

Lemma before_colon_rstrip (s : string) :
  has_colon s = true -> before_colon (rstrip s) = before_colon s.
Proof.
induction s as [|c s IH]; [discriminate|].
cbn [has_colon before_colon]. destruct (Ascii.eqb c colon) eqn:E; cbn [orb].
- intros _. rewrite (rstrip_cons c s (colon_eqb c E)). cbn [before_colon].
  now rewrite E.
- intros H. pose proof (rstrip_colon_nonempty s H) as Hne.
  cbn [rstrip]. destruct (rstrip s) as [|a r] eqn:Er; [contradiction|].
  cbn [before_colon]. rewrite E. f_equal. now apply IH.
Qed.

Lemma no_colon_rstrip (s : string) :
  has_colon s = false -> has_colon (rstrip s) = false.
Proof.
induction s as [|c s IH]; [reflexivity|].
cbn [has_colon]. destruct (Ascii.eqb c colon) eqn:E; cbn [orb]; [discriminate|].
intros H. specialize (IH H). cbn [rstrip].
destruct (rstrip s) as [|a r].
- destruct (isspace c); [reflexivity|]. cbn [has_colon]. now rewrite E.
- cbn [has_colon] in *. now rewrite E, IH.
Qed.

Lemma rstrip_idempotent (s : string) : rstrip (rstrip s) = rstrip s.
Proof.
induction s as [|c s IH]; [reflexivity|].
cbn [rstrip]. destruct (rstrip s) as [|a r] eqn:Er.
- destruct (isspace c) eqn:Ec; [reflexivity|]. cbn [rstrip]. now rewrite Ec.
- change (rstrip (String c (String a r))) with
    (match rstrip (String a r) with
     | EmptyString => if isspace c then EmptyString else String c EmptyString
     | String a' r' => String c (String a' r')
     end).
  now rewrite IH.
Qed.

(** Trimming an answer that starts with TOOL: trims only its end. *)
Lemma strip_TOOL (rest : string) : strip ("TOOL:" ++ rest) = "TOOL:" ++ rstrip rest.
Proof.
unfold strip. cbn [append].
now rewrite !rstrip_cons by reflexivity.
Qed.

(** The second piece of the trimmed answer, trimmed, is the second piece of
    the answer, trimmed. *)
Lemma second_piece_of_stripped (rest : string) :
  strip (before_colon (rstrip rest)) = strip (before_colon rest).
Proof.
destruct (has_colon rest) eqn:H.
- now rewrite before_colon_rstrip.
- rewrite (no_colon_before _ (no_colon_rstrip _ H)), (no_colon_before _ H).
  unfold strip. now rewrite rstrip_idempotent.
Qed.

(** ** The monad *)

Lemma world_after_nil (w : world) : world_after w [] = w.
Proof. destruct w; unfold world_after; simpl. now rewrite app_nil_r. Qed.

Lemma world_after_app (w : world) (a b : list event) :
  world_after (world_after w a) b = world_after w (a ++ b).
Proof. unfold world_after; simpl. now rewrite app_assoc. Qed.

Lemma emit_eq (e : event) (w : world) : emit e w = (Return tt, world_after w [e]).
Proof. reflexivity. Qed.

Lemma bind_return {A B} (m : M A) (k : A -> M B) (w w' : world) (a : A) :
  m w = (Return a, w') -> bind m k w = k a w'.
Proof. unfold bind. now intros ->. Qed.

Lemma bind_ext {A B} (m : M A) (k k' : A -> M B) (w : world) :
  (forall a w', k a w' = k' a w') -> bind m k w = bind m k' w.
Proof.
intros H. unfold bind. destruct (m w) as [[a|e] w']; [apply H | reflexivity].
Qed.

Lemma try_ext {A} (m m' : M A) (h : exn -> M A) (w : world) :
  (forall w', m w' = m' w') -> try_except m h w = try_except m' h w.
Proof. intros H. unfold try_except. now rewrite H. Qed.

Lemma reads_eval {A} (m : M A) (d : A) (w : world) :
  reads m -> m w = (Return (eval m w d), w).
Proof.
intros H. destruct (H w) as [a E]. unfold eval. now rewrite E.
Qed.

Lemma reads_ret {A} (a : A) : reads (ret a).
Proof. intros w. now exists a. Qed.

(** ** Registries *)

Lemma collect_enabled_eq (p : string -> M bool) (f : string -> bool) (w : world)
  (items : dict tool) :
  (forall n, p n w = (Return (f n), w)) ->
  forall acc,
    collect_enabled p items acc w = (Return (acc ++ filter f (keys items))%list, w).
Proof.
intros Hp. induction items as [|[n t] items IH]; intros acc; simpl.
- now rewrite app_nil_r.
- rewrite (bind_return _ _ _ _ _ (Hp n)). rewrite IH.
  destruct (f n); simpl; [now rewrite <- app_assoc | reflexivity].
Qed.

Lemma dict_get_contains {V} (k : string) (d : dict V) :
  dict_contains k d = true ->
  exists v, In (k, v) d /\ forall w, dict_get k d w = (Return v, w).
Proof.
induction d as [|[k' v] d IH]; simpl; [discriminate|].
destruct (String.eqb k k') eqn:E; simpl.
- intros _. apply String.eqb_eq in E. subst k'. exists v. split; [now left|reflexivity].
- intros H. destruct (IH H) as [v' [Hin Hget]].
  exists v'. split; [now right|exact Hget].
Qed.

Lemma use_tool (d : dict tool) (n q : string) (w : world) :
  runs_as_filed d -> dict_contains n d = true ->
  exists t text,
    In (n, t) d /\
    function t q w = (Return text, world_after w [ToolRun n q]) /\
    (entry <- dict_get n d ;;
     tool_response <- function entry q ;;
     ret ("Used " ++ n ++ ": " ++ tool_response)) w
    = (Return ("Used " ++ n ++ ": " ++ text), world_after w [ToolRun n q]).
Proof.
intros Hd Hc.
destruct (dict_get_contains n d Hc) as [t [Hin Hget]].
destruct (Hd n t Hin q w) as [text Hrun].
exists t, text. split; [exact Hin|]. split; [exact Hrun|].
rewrite (bind_return _ _ _ _ _ (Hget w)).
now rewrite (bind_return _ _ _ _ _ Hrun).
Qed.

Lemma billing_tools_filed : runs_as_filed BillingAgent.tools.
Proof. filed. Qed.

Lemma technical_tools_filed : runs_as_filed TechnicalAgent.tools.
Proof. filed. Qed.

Lemma general_tools_filed : runs_as_filed GeneralAgent.tools.
Proof. filed. Qed.

(** ** The shared shape of the specialists *)

Section Specialist.

Variable key : agent_key.
Variable tools : dict tool.
Variable is_tool_enabled : string -> M bool.
Variable get_available_tools : M (list string).
Variable prompt : string -> list string -> string.
Variables refusal apology : string.

Hypothesis tools_filed : runs_as_filed tools.
Hypothesis enabled_reads : forall n, reads (is_tool_enabled n).
Hypothesis available_reads : reads get_available_tools.
Hypothesis enabled_frame : forall n w evs d,
  eval (is_tool_enabled n) (world_after w evs) d = eval (is_tool_enabled n) w d.
Hypothesis available_frame : forall w evs d,
  eval get_available_tools (world_after w evs) d = eval get_available_tools w d.

(** What the shared shape returns and logs, by the classifier's answer. *)
Lemma specialist_body_spec (generate : classifier) (query : string) (w : world) :
  exists response evs,
    specialist_body key tools is_tool_enabled get_available_tools prompt refusal apology
      generate query w
    = (Return response, world_after w (Entered key query :: evs)) /\
    match generate (prompt query (eval get_available_tools w [])) with
    | Raise e => response = apology ++ exc_str e /\ evs = []
    | Return text =>
        if startswith (strip text) "TOOL:" then
          let tool_name := strip (before_colon (after_first_colon (strip text))) in
          if dict_contains tool_name tools && eval (is_tool_enabled tool_name) w false
          then
            exists t tool_response,
              In (tool_name, t) tools /\
              function t query (world_after w [Entered key query])
              = (Return tool_response,
                 world_after w [Entered key query; ToolRun tool_name query]) /\
              response = "Used " ++ tool_name ++ ": " ++ tool_response /\
              evs = [ToolRun tool_name query]
          else response = refusal /\ evs = []
        else response = strip text /\ evs = []
    end.
Proof.
unfold specialist_body.
rewrite (bind_return _ _ _ _ _ (emit_eq _ _)).
set (w1 := world_after w _).
rewrite (bind_return _ _ _ _ _ (reads_eval _ [] w1 available_reads)).
unfold w1 at 1. rewrite available_frame.
unfold try_except, bind at 1, generate_content.
destruct (generate (prompt query (eval get_available_tools w []))) as [text|e].
- destruct (startswith (strip text) "TOOL:") eqn:Hp.
  + rewrite (bind_return _ _ _ _ _
               (tool_name_of_colon _ w1 (startswith_has_colon _ Hp))).
    set (tool_name := strip (before_colon (after_first_colon (strip text)))).
    cbv zeta.
    rewrite <- (enabled_frame tool_name w [Entered key query] false).
    fold w1.
    pose proof (reads_eval _ false w1 (enabled_reads tool_name)) as He.
    destruct (dict_contains tool_name tools) eqn:Hc.
    * rewrite (bind_return _ _ _ _ _ He).
      destruct (eval (is_tool_enabled tool_name) w1 false).
      -- destruct (use_tool _ tool_name query w1 tools_filed Hc)
           as [t [text' [Hin [Hrun Huse]]]].
         rewrite Huse. unfold w1 in *. rewrite world_after_app in *.
         eexists _, _. split; [reflexivity|].
         exists t, text'. repeat split; assumption.
      -- eexists _, []. split; [reflexivity|]. now split.
    * unfold bind, ret. eexists _, []. split; [reflexivity|]. now split.
  + eexists _, []. split; [reflexivity|]. now split.
- eexists _, []. split; [reflexivity|]. now split.
Qed.

End Specialist.

(** ** The three specialists *)

Lemma billing_is_tool_enabled_reads self n : reads (BillingAgent.is_tool_enabled self n).
Proof.
intros w. unfold BillingAgent.is_tool_enabled.
destruct (String.eqb n "process_refund"); [|now eexists].
destruct (SupportAgent.context self); now eexists.
Qed.

Lemma technical_is_tool_enabled_reads self n : reads (TechnicalAgent.is_tool_enabled self n).
Proof.
intros w. unfold TechnicalAgent.is_tool_enabled.
destruct (String.eqb n "restart_service"); [|now eexists].
destruct (SupportAgent.context self); now eexists.
Qed.

Lemma is_tool_enabled_of_reads k self n : reads (is_tool_enabled_of k self n).
Proof.
destruct k; simpl;
  auto using billing_is_tool_enabled_reads, technical_is_tool_enabled_reads, reads_ret.
Qed.

Lemma is_tool_enabled_of_frame k self n w evs d :
  eval (is_tool_enabled_of k self n) (world_after w evs) d
  = eval (is_tool_enabled_of k self n) w d.
Proof.
destruct k; try reflexivity; unfold eval; simpl.
- unfold BillingAgent.is_tool_enabled.
  destruct (String.eqb n "process_refund"); [|reflexivity].
  destruct (SupportAgent.context self); reflexivity.
- unfold TechnicalAgent.is_tool_enabled.
  destruct (String.eqb n "restart_service"); [|reflexivity].
  destruct (SupportAgent.context self); reflexivity.
Qed.

(** The tools listed are the registry's keys the gate lets through, in the
    registry's order. *)
Lemma get_available_tools_of_eq k self w :
  get_available_tools_of k self w
  = (Return (filter (fun n => eval (is_tool_enabled_of k self n) w false)
               (keys (tools_of k))), w).
Proof.
assert (forall k', collect_enabled (is_tool_enabled_of k' self) (tools_of k') [] w
  = (Return (filter (fun n => eval (is_tool_enabled_of k' self n) w false)
               (keys (tools_of k'))), w)) as H.
{ intros k'.
  rewrite (collect_enabled_eq _
             (fun n => eval (is_tool_enabled_of k' self n) w false)).
  - reflexivity.
  - intros n. apply reads_eval, is_tool_enabled_of_reads. }
destruct k; try reflexivity; [exact (H billing) | exact (H technical)].
Qed.

Lemma get_available_tools_of_reads k self : reads (get_available_tools_of k self).
Proof. intros w. rewrite get_available_tools_of_eq. now eexists. Qed.

Lemma get_available_tools_of_frame k self w evs d :
  eval (get_available_tools_of k self) (world_after w evs) d
  = eval (get_available_tools_of k self) w d.
Proof.
unfold eval. rewrite !get_available_tools_of_eq. cbn [fst].
apply filter_ext. intros n. apply is_tool_enabled_of_frame.
Qed.

Lemma tools_of_filed k : runs_as_filed (tools_of k).
Proof.
destruct k; simpl;
  auto using billing_tools_filed, technical_tools_filed, general_tools_filed.
Qed.

(** The general agent has the shared shape with a gate that is always open. *)
Lemma general_process_query_shape self generate query w :
  GeneralAgent.process_query self generate query w
  = specialist_body general GeneralAgent.tools (fun _ => ret true)
      (GeneralAgent.get_available_tools self) GeneralAgent.prompt
      GeneralAgent.refusal GeneralAgent.apology generate query w.
Proof.
unfold GeneralAgent.process_query, specialist_body.
apply bind_ext. intros _ w1.
apply bind_ext. intros available_tools w2.
apply try_ext. intros w3.
apply bind_ext. intros text w4.
destruct (startswith (strip text) "TOOL:"); [|reflexivity].
apply bind_ext. intros tool_name w5.
unfold bind at 3.
destruct (dict_contains tool_name GeneralAgent.tools); reflexivity.
Qed.

(** Every specialist has the shared shape. *)
Lemma specialist_process_query_shape k self generate query w :
  is_specialist k = true ->
  specialist_process_query k self generate query w
  = specialist_body k (tools_of k) (is_tool_enabled_of k self)
      (get_available_tools_of k self) (prompt_of k) (refusal_of k) (apology_of k)
      generate query w.
Proof.
destruct k; intros Hk; try discriminate Hk; try reflexivity.
apply general_process_query_shape.
Qed.

(** What a specialist returns and logs, by the classifier's answer: it
    always returns, logs its entry and at most one tool run, and leaves the
    store as it was. *)
Lemma specialist_spec k self generate query w :
  is_specialist k = true ->
  exists response evs,
    specialist_process_query k self generate query w
    = (Return response, world_after w (Entered k query :: evs)) /\
    match answer_to k self generate query w with
    | Raise e => response = apology_of k ++ exc_str e /\ evs = []
    | Return text =>
        if startswith (strip text) "TOOL:" then
          let tool_name := strip (before_colon (after_first_colon (strip text))) in
          if dict_contains tool_name (tools_of k)
             && eval (is_tool_enabled_of k self tool_name) w false
          then
            exists t tool_response,
              In (tool_name, t) (tools_of k) /\
              function t query (world_after w [Entered k query])
              = (Return tool_response,
                 world_after w [Entered k query; ToolRun tool_name query]) /\
              response = "Used " ++ tool_name ++ ": " ++ tool_response /\
              evs = [ToolRun tool_name query]
          else response = refusal_of k /\ evs = []
        else response = strip text /\ evs = []
    end.
Proof.
intros Hk. rewrite (specialist_process_query_shape _ _ _ _ _ Hk).
unfold answer_to.
apply specialist_body_spec.
- apply tools_of_filed.
- apply is_tool_enabled_of_reads.
- apply get_available_tools_of_reads.
- apply is_tool_enabled_of_frame.
- apply get_available_tools_of_frame.
Qed.

(** ** The triage agent *)

Lemma str_in_In (x : string) (l : list string) : str_in x l = true -> In x l.
Proof.
unfold str_in. rewrite existsb_exists.
intros [y [Hy E]]. apply String.eqb_eq in E. now subst y.
Qed.

(** What the triage agent returns, logs and writes, by the classifier's
    answer. *)
Lemma triage_spec self generate query w :
  exists category w',
    TriageAgent.process_query self generate query w
    = (Return (mk_handoff category (handoff_message category)), w') /\
    In category (map value IssueType_members) /\
    match generate (TriageAgent.prompt query) with
    | Raise _ => category = value GENERAL
    | Return text =>
        if str_in (lower (strip text)) (map value IssueType_members)
        then category = lower (strip text)
        else category = value GENERAL
    end /\
    fresh w' = fresh w /\
    log w' = (log w ++ [Entered triage query])%list /\
    forall r, heap w' r = if bound_to self r
                          then triage_write category query (heap w r)
                          else heap w r.
Proof.
unfold TriageAgent.process_query.
rewrite (bind_return _ _ _ _ _ (emit_eq _ _)).
unfold try_except, bind at 2, generate_content, bound_to.
destruct (generate (TriageAgent.prompt query)) as [text|e].
- destruct (str_in (lower (strip text)) (map value IssueType_members)) eqn:Hin;
    cbn [negb]; unfold ret at 1, bind at 1;
    destruct (SupportAgent.context self) as [r0|];
    eexists _, _; (split; [reflexivity|]);
    (split; [first [now apply str_in_In | simpl; tauto]|]);
    (split; [reflexivity|]); (split; [reflexivity|]); (split; [reflexivity|]);
    intros r; simpl; unfold triage_write;
    repeat match goal with |- context [Nat.eqb ?a ?b] => destruct (Nat.eqb a b) end;
    reflexivity.
- unfold ret at 1, bind at 1;
    destruct (SupportAgent.context self) as [r0|];
    eexists _, _; (split; [reflexivity|]);
    (split; [simpl; tauto|]);
    (split; [reflexivity|]); (split; [reflexivity|]); (split; [reflexivity|]);
    intros r; simpl; unfold triage_write;
    repeat match goal with |- context [Nat.eqb ?a ?b] => destruct (Nat.eqb a b) end;
    reflexivity.
Qed.

(** ** A specialist's two answers to a tool request *)

Lemma specialist_refuses k self generate query w text tool_name :
  is_specialist k = true ->
  answer_to k self generate query w = Return text ->
  startswith (strip text) "TOOL:" = true ->
  tool_name_of (strip text) w = (Return tool_name, w) ->
  dict_contains tool_name (tools_of k)
  && eval (is_tool_enabled_of k self tool_name) w false = false ->
  specialist_process_query k self generate query w
  = (Return (refusal_of k), world_after w [Entered k query]).
Proof.
intros Hk Hanswer Hstart Hname Hno.
destruct (specialist_spec k self generate query w Hk) as [response [evs [Hrun Hcase]]].
rewrite Hanswer, Hstart in Hcase.
rewrite (tool_name_of_colon _ w (startswith_has_colon _ Hstart)) in Hname.
injection Hname as Hname. rewrite Hname in Hcase. cbv zeta in Hcase.
rewrite Hno in Hcase. destruct Hcase as [-> ->]. exact Hrun.
Qed.

Lemma specialist_uses k self generate query w text tool_name :
  is_specialist k = true ->
  answer_to k self generate query w = Return text ->
  startswith (strip text) "TOOL:" = true ->
  tool_name_of (strip text) w = (Return tool_name, w) ->
  dict_contains tool_name (tools_of k)
  && eval (is_tool_enabled_of k self tool_name) w false = true ->
  exists t tool_response,
    In (tool_name, t) (tools_of k) /\
    function t query (world_after w [Entered k query])
    = (Return tool_response, world_after w [Entered k query; ToolRun tool_name query]) /\
    specialist_process_query k self generate query w
    = (Return ("Used " ++ tool_name ++ ": " ++ tool_response),
       world_after w [Entered k query; ToolRun tool_name query]).
Proof.
intros Hk Hanswer Hstart Hname Hyes.
destruct (specialist_spec k self generate query w Hk) as [response [evs [Hrun Hcase]]].
rewrite Hanswer, Hstart in Hcase.
rewrite (tool_name_of_colon _ w (startswith_has_colon _ Hstart)) in Hname.
injection Hname as Hname. rewrite Hname in Hcase. cbv zeta in Hcase.
rewrite Hyes in Hcase.
destruct Hcase as [t [tool_response [Hin [Hfun [-> ->]]]]].
exists t, tool_response. repeat split; assumption.
Qed.

(** A specialist runs at most one tool, and only one its gate lets through. *)
Lemma specialist_runs_enabled k self generate query w :
  is_specialist k = true ->
  exists response evs,
    specialist_process_query k self generate query w
    = (Return response, world_after w (Entered k query :: evs)) /\
    (evs = [] \/
     exists tool_name,
       evs = [ToolRun tool_name query] /\
       dict_contains tool_name (tools_of k) = true /\
       eval (is_tool_enabled_of k self tool_name) w false = true).
Proof.
intros Hk.
destruct (specialist_spec k self generate query w Hk) as [response [evs [Hrun Hcase]]].
exists response, evs. split; [exact Hrun|].
destruct (answer_to k self generate query w) as [text|e]; [|now left].
destruct (startswith (strip text) "TOOL:"); [|now left].
cbv zeta in Hcase.
destruct (dict_contains _ (tools_of k)) eqn:Hc; cbn [andb] in Hcase; [|now left].
destruct (eval (is_tool_enabled_of k self _) w false) eqn:He; [|now left].
destruct Hcase as [t [tool_response [_ [_ [_ ->]]]]].
right. eexists. split; [reflexivity|]. now split.
Qed.

(** ** Triage: the fallback category *)

(** C1.  Every triage invocation returns (it never raises) a category that
    is one of the three tokens and records that same category in the context
    it is bound to; when the classifier call fails, or answers a text that
    trimmed and lowercased is none of the three tokens, that category is
    general. *)
Theorem triage_falls_back_to_general (self : SupportAgent.t) (generate : classifier)
  (query : string) (w : world) :
  exists d w',
    TriageAgent.process_query self generate query w = (Return d, w') /\
    In (issue_type d) ["billing"; "technical"; "general"] /\
    (forall r, SupportAgent.context self = Some r ->
       UserContext.issue_type (heap w' r) = Some (issue_type d)) /\
    (match generate (TriageAgent.prompt query) with
     | Raise _ => True
     | Return text =>
         str_in (lower (strip text)) ["billing"; "technical"; "general"] = false
     end -> issue_type d = "general").
Proof.
destruct (triage_spec self generate query w)
  as [category [w' [Hrun [Hin [Hcase [_ [_ Hheap]]]]]]].
exists (mk_handoff category (handoff_message category)), w'.
split; [exact Hrun|]. split; [exact Hin|]. split.
- intros r Hr. rewrite Hheap. unfold bound_to. rewrite Hr, Nat.eqb_refl.
  reflexivity.
- cbn [issue_type]. change (map value IssueType_members)
    with ["billing"; "technical"; "general"] in Hcase.
  destruct (generate (TriageAgent.prompt query)) as [text|e].
  + intros Hno. now rewrite Hno in Hcase.
  + intros _. exact Hcase.
Qed.

Lemma triage_falls_back_to_general_witness :
  (exists d w',
     TriageAgent.process_query (bound TriageAgent.init) fails "my invoice" empty_world
     = (Return d, w') /\ issue_type d = "general") /\
  (exists d w',
     TriageAgent.process_query (bound TriageAgent.init) (says "Refunds!") "my invoice"
       empty_world
     = (Return d, w') /\ issue_type d = "general").
Proof.
split.
- destruct (triage_falls_back_to_general (bound TriageAgent.init) fails "my invoice"
              empty_world) as [d [w' [Hrun [_ [_ Hfall]]]]].
  exists d, w'. split; [exact Hrun | apply Hfall; exact I].
- destruct (triage_falls_back_to_general (bound TriageAgent.init) (says "Refunds!")
              "my invoice" empty_world) as [d [w' [Hrun [_ [_ Hfall]]]]].
  exists d, w'. split; [exact Hrun | apply Hfall; reflexivity].
Defined.

(** ** Specialists: the tool name and the refusal *)

(** C4.  When the classifier's answer starts with TOOL: and the name the
    handler extracts from it is not in the handler's registry, or is in it
    and gated off in the current state, the handler returns its fixed
    refusal, and the log shows its entry and no tool run. *)
Theorem refused_when_unknown_or_disabled (k : agent_key) (self : SupportAgent.t)
  (generate : classifier) (query : string) (w : world) (text tool_name : string) :
  is_specialist k = true ->
  answer_to k self generate query w = Return text ->
  startswith (strip text) "TOOL:" = true ->
  tool_name_of (strip text) w = (Return tool_name, w) ->
  dict_contains tool_name (tools_of k) = false \/
    eval (is_tool_enabled_of k self tool_name) w false = false ->
  specialist_process_query k self generate query w
  = (Return (refusal_of k), world_after w [Entered k query]).
Proof.
intros Hk Hanswer Hstart Hname Hoff.
apply (specialist_refuses k self generate query w text tool_name); try assumption.
destruct Hoff as [H|H]; rewrite H; [reflexivity | apply andb_false_r].
Qed.

Lemma refused_when_unknown_or_disabled_witness :
  BillingAgent.process_query (bound BillingAgent.init) (says "TOOL:process_refund")
    "refund me" empty_world
  = (Return BillingAgent.refusal, world_after empty_world [Entered billing "refund me"])
  /\
  TechnicalAgent.process_query (bound TechnicalAgent.init) (says "TOOL:format_disk")
    "it is slow" empty_world
  = (Return TechnicalAgent.refusal, world_after empty_world [Entered technical "it is slow"]).
Proof.
split.
- apply (refused_when_unknown_or_disabled billing (bound BillingAgent.init)
           (says "TOOL:process_refund") "refund me" empty_world
           "TOOL:process_refund" "process_refund");
    [reflexivity | reflexivity | reflexivity | reflexivity | right; reflexivity].
- apply (refused_when_unknown_or_disabled technical (bound TechnicalAgent.init)
           (says "TOOL:format_disk") "it is slow" empty_world
           "TOOL:format_disk" "format_disk");
    [reflexivity | reflexivity | reflexivity | reflexivity | left; reflexivity].
Defined.

(** An answer that starts with TOOL: still does once trimmed, so the handler
    takes the tool branch for it. *)
Lemma strip_keeps_TOOL (text : string) :
  startswith text "TOOL:" = true -> startswith (strip text) "TOOL:" = true.
Proof.
intros H. destruct (startswith_TOOL text H) as [rest ->].
rewrite strip_TOOL. unfold startswith. cbn. now destruct (rstrip rest).
Qed.

(** C5, as the code has it.  When the trimmed answer starts with TOOL: (as
    it does when the answer itself starts with TOOL:), the name the handler
    extracts is the text between the first colon and the next one (or the
    end when there is no other colon), trimmed: of the trimmed answer, and
    just as well of the answer itself when that starts with TOOL:.  It is
    the whole trimmed text after the first colon when that text holds no
    other colon. *)
Theorem tool_name_is_second_piece (text : string) (w : world) :
  startswith (strip text) "TOOL:" = true ->
  tool_name_of (strip text) w
  = (Return (strip (before_colon (after_first_colon (strip text)))), w) /\
  (has_colon (after_first_colon (strip text)) = false ->
   tool_name_of (strip text) w = (Return (strip (after_first_colon (strip text))), w)) /\
  (startswith text "TOOL:" = true ->
   tool_name_of (strip text) w
   = (Return (strip (before_colon (after_first_colon text))), w)).
Proof.
intros Hstart.
pose proof (tool_name_of_colon (strip text) w (startswith_has_colon _ Hstart)) as H.
split; [exact H|]. split.
- intros Hno. now rewrite H, (no_colon_before _ Hno).
- intros Hraw. destruct (startswith_TOOL text Hraw) as [rest ->].
  rewrite H, strip_TOOL.
  change (after_first_colon ("TOOL:" ++ rstrip rest)) with (rstrip rest).
  change (after_first_colon ("TOOL:" ++ rest)) with rest.
  now rewrite second_piece_of_stripped.
Qed.

Lemma tool_name_is_second_piece_witness :
  tool_name_of (strip "  TOOL:explain_charges: see the invoice") empty_world
  = (Return "explain_charges", empty_world) /\
  tool_name_of (strip "TOOL: check_status ") empty_world
  = (Return "check_status", empty_world) /\
  tool_name_of (strip "TOOL:a:b  ") empty_world = (Return "a", empty_world).
Proof.
split; [|split].
- exact (proj1 (tool_name_is_second_piece "  TOOL:explain_charges: see the invoice"
                  empty_world eq_refl)).
- exact (proj1 (proj2 (tool_name_is_second_piece "TOOL: check_status " empty_world
                         eq_refl)) eq_refl).
- exact (proj2 (proj2 (tool_name_is_second_piece "TOOL:a:b  " empty_world eq_refl))
           eq_refl).
Defined.

(** C5, as stated, fails: for the answer TOOL:a:b the handler extracts a,
    not a:b; and for TOOL:explain_charges:now the billing handler runs
    explain_charges, which the whole text after the first colon does not
    name. *)
Lemma tool_name_not_whole_rest :
  startswith "TOOL:a:b" "TOOL:" = true /\
  strip (after_first_colon "TOOL:a:b") = "a:b" /\
  tool_name_of "TOOL:a:b" empty_world = (Return "a", empty_world) /\
  tool_name_of "TOOL:a:b" empty_world
  <> (Return (strip (after_first_colon "TOOL:a:b")), empty_world) /\
  dict_contains (strip (after_first_colon "TOOL:explain_charges:now")) BillingAgent.tools
  = false /\
  tool_runs (log (snd (BillingAgent.process_query (bound BillingAgent.init)
                         (says "TOOL:explain_charges:now") "why" empty_world)))
  = ["explain_charges"].
Proof.
repeat split; try reflexivity.
intros H. discriminate H.
Qed.

(** C9.  A text with a colon splits into at least two pieces; so for an
    answer that starts with TOOL: the index 1 into the split is defined and
    the extraction returns; the empty name is in no registry; and a name
    that is in none, the empty one of the bare answer TOOL: among them,
    gets the refusal, not the error reply of the except branch; in all, the
    reply to an answer that starts with TOOL: is the refusal or the report
    of a tool of the registry. *)
Theorem tool_lookup_is_total :
  (forall s, has_colon s = true -> 2 <= length (split colon s)) /\
  (forall response_text, startswith response_text "TOOL:" = true ->
     exists piece,
       nth_error (split colon response_text) 1 = Some piece /\
       forall w, tool_name_of response_text w = (Return (strip piece), w)) /\
  (forall k, dict_contains "" (tools_of k) = false) /\
  (forall k self generate query w text tool_name,
     is_specialist k = true ->
     answer_to k self generate query w = Return text ->
     startswith (strip text) "TOOL:" = true ->
     tool_name_of (strip text) w = (Return tool_name, w) ->
     dict_contains tool_name (tools_of k) = false ->
     specialist_process_query k self generate query w
     = (Return (refusal_of k), world_after w [Entered k query])) /\
  (forall k self generate query w text,
     is_specialist k = true ->
     answer_to k self generate query w = Return text ->
     strip text = "TOOL:" ->
     specialist_process_query k self generate query w
     = (Return (refusal_of k), world_after w [Entered k query])) /\
  (forall k self generate query w text,
     is_specialist k = true ->
     answer_to k self generate query w = Return text ->
     startswith (strip text) "TOOL:" = true ->
     exists response w',
       specialist_process_query k self generate query w = (Return response, w') /\
       (response = refusal_of k \/
        exists tool_name tool_response,
          dict_contains tool_name (tools_of k) = true /\
          response = "Used " ++ tool_name ++ ": " ++ tool_response)).
Proof.
assert (forall k self generate query w text tool_name,
     is_specialist k = true ->
     answer_to k self generate query w = Return text ->
     startswith (strip text) "TOOL:" = true ->
     tool_name_of (strip text) w = (Return tool_name, w) ->
     dict_contains tool_name (tools_of k) = false ->
     specialist_process_query k self generate query w
     = (Return (refusal_of k), world_after w [Entered k query])) as Hunknown.
{ intros k self generate query w text tool_name Hk Hanswer Hstart Hname Hno.
  apply (specialist_refuses k self generate query w text tool_name); try assumption.
  now rewrite Hno. }
split; [|split; [|split; [|split; [|split]]]].
- intros s Hs. destruct (split_at_colon s Hs) as [pieces E]. rewrite E. simpl. lia.
- intros response_text Hstart.
  destruct (split_at_colon _ (startswith_has_colon _ Hstart)) as [pieces E].
  exists (before_colon (after_first_colon response_text)). split.
  + now rewrite E.
  + intros w. apply tool_name_of_colon, startswith_has_colon, Hstart.
- intros k. destruct k; reflexivity.
- exact Hunknown.
- intros k self generate query w text Hk Hanswer Hbare.
  apply (Hunknown k self generate query w text "" Hk Hanswer).
  + now rewrite Hbare.
  + now rewrite Hbare.
  + destruct k; reflexivity.
- intros k self generate query w text Hk Hanswer Hstart.
  destruct (specialist_spec k self generate query w Hk) as [response [evs [Hrun Hcase]]].
  exists response, (world_after w (Entered k query :: evs)). split; [exact Hrun|].
  rewrite Hanswer, Hstart in Hcase. cbv zeta in Hcase.
  destruct (dict_contains _ (tools_of k)) eqn:Hc; cbn [andb] in Hcase.
  + destruct (eval _ w false).
    * destruct Hcase as [t [tool_response [_ [_ [-> _]]]]].
      right. eexists _, tool_response. split; [exact Hc | reflexivity].
    * left. apply Hcase.
  + left. apply Hcase.
Qed.

Lemma tool_lookup_is_total_witness :
  2 <= length (split colon "TOOL:") /\
  (exists piece, nth_error (split colon "TOOL:") 1 = Some piece) /\
  GeneralAgent.process_query (bound GeneralAgent.init) (says " TOOL: ") "hello"
    empty_world
  = (Return GeneralAgent.refusal, world_after empty_world [Entered general "hello"]) /\
  BillingAgent.process_query (bound BillingAgent.init) (says "TOOL:pay_me") "hello"
    empty_world
  = (Return BillingAgent.refusal, world_after empty_world [Entered billing "hello"]).
Proof.
destruct tool_lookup_is_total as [Hlen [Hidx [_ [Hunknown [Hbare _]]]]].
split; [|split; [|split]].
- apply Hlen. reflexivity.
- destruct (Hidx "TOOL:" eq_refl) as [piece [Hp _]]. now exists piece.
- apply (Hbare general (bound GeneralAgent.init) (says " TOOL: ") "hello" empty_world
           " TOOL: "); reflexivity.
- apply (Hunknown billing (bound BillingAgent.init) (says "TOOL:pay_me") "hello"
           empty_world "TOOL:pay_me" "pay_me"); reflexivity.
Defined.

(** ** The two gates *)

Lemma billing_gate self r w :
  SupportAgent.context self = Some r ->
  eval (BillingAgent.is_tool_enabled self "process_refund") w false
  = UserContext.is_premium_user (heap w r).
Proof.
intros H. unfold eval, BillingAgent.is_tool_enabled. simpl. now rewrite H.
Qed.

Lemma technical_gate self r w :
  SupportAgent.context self = Some r ->
  eval (TechnicalAgent.is_tool_enabled self "restart_service") w false
  = TechnicalAgent.is_technical (UserContext.issue_type (heap w r)).
Proof.
intros H. unfold eval, TechnicalAgent.is_tool_enabled. simpl. now rewrite H.
Qed.

Lemma is_technical_iff (category : option string) :
  TechnicalAgent.is_technical category = true <-> category = Some "technical".
Proof.
destruct category as [t|]; simpl.
- rewrite String.eqb_eq. split; [now intros -> | now intros [= ->]].
- split; discriminate.
Qed.

Lemma available_iff_enabled k self w (n : string) :
  In n (eval (get_available_tools_of k self) w [])
  <-> In n (keys (tools_of k)) /\ eval (is_tool_enabled_of k self n) w false = true.
Proof.
unfold eval at 1. rewrite get_available_tools_of_eq. cbn [fst].
apply filter_In.
Qed.

(** C2.  For a billing agent bound to the session's context: process_refund
    is among the tools it lists exactly when the premium flag is set; on the
    answer TOOL:process_refund it runs the refund and reports it when the
    flag is set, and returns the refusal with no tool run when it is not;
    and with the flag not set no answer of the classifier makes it run the
    refund. *)
Theorem refund_reachable_iff_premium (self : SupportAgent.t) (r : ref)
  (generate : classifier) (query : string) (w : world) :
  SupportAgent.context self = Some r ->
  let premium := UserContext.is_premium_user (heap w r) in
  exists available,
    BillingAgent.get_available_tools self w = (Return available, w) /\
    (In "process_refund" available <-> premium = true) /\
    (forall text,
       generate (BillingAgent.prompt query available) = Return text ->
       strip text = "TOOL:process_refund" ->
       BillingAgent.process_query self generate query w
       = if premium
         then (Return ("Used process_refund: " ++ BillingAgent.refund_text),
               world_after w [Entered billing query; ToolRun "process_refund" query])
         else (Return BillingAgent.refusal, world_after w [Entered billing query])) /\
    (premium = false ->
     exists response evs,
       BillingAgent.process_query self generate query w
       = (Return response, world_after w evs) /\
       ~ In "process_refund" (tool_runs evs)).
Proof.
intros Hctx premium.
pose proof (billing_gate self r w Hctx) as Hgate. fold premium in Hgate.
exists (eval (BillingAgent.get_available_tools self) w []).
split; [|split; [|split]].
- apply (reads_eval _ [] w (get_available_tools_of_reads billing self)).
- rewrite (available_iff_enabled billing self w "process_refund").
  cbn [is_tool_enabled_of]. rewrite Hgate. simpl. tauto.
- intros text Hanswer Hstrip.
  assert (startswith (strip text) "TOOL:" = true) as Hstart by now rewrite Hstrip.
  assert (tool_name_of (strip text) w = (Return "process_refund", w)) as Hname
    by now rewrite Hstrip.
  destruct premium eqn:Hp.
  + destruct (specialist_uses billing self generate query w text "process_refund"
                eq_refl Hanswer Hstart Hname) as [t [tool_response [Hin [Hfun Hrun]]]].
    { cbn [is_tool_enabled_of]. now rewrite Hgate. }
    simpl in Hin. destruct Hin as [Hin|[Hin|[Hin|[]]]]; try discriminate Hin.
    injection Hin as <-. cbn in Hfun. injection Hfun as <-.
    exact Hrun.
  + apply (specialist_refuses billing self generate query w text "process_refund"
             eq_refl Hanswer Hstart Hname).
    cbn [is_tool_enabled_of]. now rewrite Hgate.
- intros Hp.
  destruct (specialist_runs_enabled billing self generate query w eq_refl)
    as [response [evs [Hrun Hevs]]].
  exists response, (Entered billing query :: evs). split; [exact Hrun|].
  destruct Hevs as [->|[tool_name [-> [_ Hen]]]]; simpl; [tauto|].
  intros [E|[]]. subst tool_name. cbn [is_tool_enabled_of] in Hen.
  rewrite Hgate, Hp in Hen. discriminate Hen.
Qed.

Lemma refund_reachable_iff_premium_witness :
  BillingAgent.process_query (bound BillingAgent.init) (says "TOOL:process_refund")
    "I was charged twice this month" (world_with premium_user)
  = (Return ("Used process_refund: " ++ BillingAgent.refund_text),
     world_after (world_with premium_user)
       [Entered billing "I was charged twice this month";
        ToolRun "process_refund" "I was charged twice this month"])
  /\
  BillingAgent.process_query (bound BillingAgent.init) (says "TOOL:process_refund")
    "I was charged twice this month" (world_with basic_user)
  = (Return BillingAgent.refusal,
     world_after (world_with basic_user)
       [Entered billing "I was charged twice this month"]).
Proof.
split.
- destruct (refund_reachable_iff_premium (bound BillingAgent.init) 0
              (says "TOOL:process_refund") "I was charged twice this month"
              (world_with premium_user) eq_refl) as [available [_ [_ [Htool _]]]].
  exact (Htool "TOOL:process_refund" eq_refl eq_refl).
- destruct (refund_reachable_iff_premium (bound BillingAgent.init) 0
              (says "TOOL:process_refund") "I was charged twice this month"
              (world_with basic_user) eq_refl) as [available [_ [_ [Htool _]]]].
  exact (Htool "TOOL:process_refund" eq_refl eq_refl).
Defined.

(** C3.  For a technical agent bound to the session's context:
    restart_service is among the tools it lists exactly when the recorded
    category is technical; on the answer TOOL:restart_service it runs the
    restart and reports it when the category is technical, and for every
    other category, none recorded included, returns the refusal with no tool
    run; and with another category no answer of the classifier makes it run
    the restart. *)
Theorem restart_reachable_iff_technical (self : SupportAgent.t) (r : ref)
  (generate : classifier) (query : string) (w : world) :
  SupportAgent.context self = Some r ->
  let category := UserContext.issue_type (heap w r) in
  exists available,
    TechnicalAgent.get_available_tools self w = (Return available, w) /\
    (In "restart_service" available <-> category = Some "technical") /\
    (forall text,
       generate (TechnicalAgent.prompt query available) = Return text ->
       strip text = "TOOL:restart_service" ->
       (category = Some "technical" ->
        TechnicalAgent.process_query self generate query w
        = (Return ("Used restart_service: " ++ TechnicalAgent.restart_text),
           world_after w [Entered technical query; ToolRun "restart_service" query])) /\
       (category <> Some "technical" ->
        TechnicalAgent.process_query self generate query w
        = (Return TechnicalAgent.refusal, world_after w [Entered technical query]))) /\
    (category <> Some "technical" ->
     exists response evs,
       TechnicalAgent.process_query self generate query w
       = (Return response, world_after w evs) /\
       ~ In "restart_service" (tool_runs evs)).
Proof.
intros Hctx category.
pose proof (technical_gate self r w Hctx) as Hgate. fold category in Hgate.
pose proof (is_technical_iff category) as Hiff.
exists (eval (TechnicalAgent.get_available_tools self) w []).
split; [|split; [|split]].
- apply (reads_eval _ [] w (get_available_tools_of_reads technical self)).
- rewrite (available_iff_enabled technical self w "restart_service").
  cbn [is_tool_enabled_of]. rewrite Hgate, <- Hiff. simpl. tauto.
- intros text Hanswer Hstrip.
  assert (startswith (strip text) "TOOL:" = true) as Hstart by now rewrite Hstrip.
  assert (tool_name_of (strip text) w = (Return "restart_service", w)) as Hname
    by now rewrite Hstrip.
  split; intros Hcat.
  + destruct (specialist_uses technical self generate query w text "restart_service"
                eq_refl Hanswer Hstart Hname) as [t [tool_response [Hin [Hfun Hrun]]]].
    { cbn [is_tool_enabled_of]. rewrite Hgate. now apply Hiff in Hcat as ->. }
    simpl in Hin. destruct Hin as [Hin|[Hin|[Hin|[]]]]; try discriminate Hin.
    injection Hin as <-. cbn in Hfun. injection Hfun as <-.
    exact Hrun.
  + apply (specialist_refuses technical self generate query w text "restart_service"
             eq_refl Hanswer Hstart Hname).
    cbn [is_tool_enabled_of]. rewrite Hgate.
    destruct (TechnicalAgent.is_technical category); [|reflexivity].
    exfalso. now apply Hcat, Hiff.
- intros Hcat.
  destruct (specialist_runs_enabled technical self generate query w eq_refl)
    as [response [evs [Hrun Hevs]]].
  exists response, (Entered technical query :: evs). split; [exact Hrun|].
  destruct Hevs as [->|[tool_name [-> [_ Hen]]]]; simpl; [tauto|].
  intros [E|[]]. subst tool_name. cbn [is_tool_enabled_of] in Hen.
  rewrite Hgate in Hen. now apply Hcat, Hiff.
Qed.

Lemma restart_reachable_iff_technical_witness :
  TechnicalAgent.process_query (bound TechnicalAgent.init) (says "TOOL:restart_service")
    "the service is down" (world_with technical_user)
  = (Return ("Used restart_service: " ++ TechnicalAgent.restart_text),
     world_after (world_with technical_user)
       [Entered technical "the service is down";
        ToolRun "restart_service" "the service is down"])
  /\
  TechnicalAgent.process_query (bound TechnicalAgent.init) (says "TOOL:restart_service")
    "the service is down" (world_with UserContext.default)
  = (Return TechnicalAgent.refusal,
     world_after (world_with UserContext.default)
       [Entered technical "the service is down"]).
Proof.
split.
- destruct (restart_reachable_iff_technical (bound TechnicalAgent.init) 0
              (says "TOOL:restart_service") "the service is down"
              (world_with technical_user) eq_refl) as [available [_ [_ [Htool _]]]].
  exact (proj1 (Htool "TOOL:restart_service" eq_refl eq_refl) eq_refl).
- destruct (restart_reachable_iff_technical (bound TechnicalAgent.init) 0
              (says "TOOL:restart_service") "the service is down"
              (world_with UserContext.default) eq_refl) as [available [_ [_ [Htool _]]]].
  apply (proj2 (Htool "TOOL:restart_service" eq_refl eq_refl)).
  discriminate.
Defined.

(** ** The session loop, one line at a time *)

Lemma triaged_app (a b : list event) : triaged (a ++ b) = triaged a + triaged b.
Proof.
induction a as [|e a IH]; [reflexivity|].
destruct e as [o|k q|n q]; simpl; try exact IH.
destruct k; simpl; now rewrite ?IH.
Qed.

Lemma summaries_app (a b : list event) :
  summaries (a ++ b) = (summaries a ++ summaries b)%list.
Proof.
induction a as [|e a IH]; [reflexivity|].
destruct e as [o|k q|n q]; simpl; try exact IH.
destruct o; simpl; now rewrite ?IH.
Qed.

Lemma entered_app (a b : list event) :
  entered (a ++ b) = (entered a ++ entered b)%list.
Proof.
induction a as [|e a IH]; [reflexivity|].
destruct e as [o|k q|n q]; simpl; now rewrite ?IH.
Qed.

Lemma leave_eq (s : session) (w : world) :
  leave s w
  = (Return (mk_session (system s) Returned),
     world_after w [Printed Goodbye; Printed (summary_line (system s) w)]).
Proof.
unfold leave, SupportSystem.print_summary, print, load, summary_line.
rewrite (bind_return _ _ _ _ _ (emit_eq _ _)).
unfold bind, emit, ret, world_after. simpl. now rewrite <- app_assoc.
Qed.

(** A line read at the query prompt by a session bound to a specialist,
    other than a word that quits: the specialist runs on the trimmed line,
    its reply is printed, and the session asks whether to go on. *)
Lemma step_specialist generate line s w :
  at_pc s = AtQuery ->
  is_specialist (SupportSystem.current_agent (system s)) = true ->
  is_quit (strip line) = false ->
  let k := SupportSystem.current_agent (system s) in
  let agent := SupportSystem.agents (system s) k in
  exists response evs,
    specialist_process_query k agent generate (strip line) w
    = (Return response, world_after w (Entered k (strip line) :: evs)) /\
    (evs = [] \/ exists tool_name, evs = [ToolRun tool_name (strip line)]) /\
    step generate line s w
    = (Return (mk_session (system s) AtContinue),
       world_after w
         (Entered k (strip line) :: evs ++
          [Printed (AgentSays (SupportAgent.name agent) response);
           Printed AnyOtherQuestions])).
Proof.
intros Hpc Hk Hquit. cbv zeta.
unfold step. rewrite Hpc, Hquit.
set (k := SupportSystem.current_agent (system s)) in *.
set (agent := SupportSystem.agents (system s) k).
destruct (specialist_runs_enabled k agent generate (strip line) w Hk)
  as [response [evs [Hrun Hevs]]].
exists response, evs. split; [exact Hrun|]. split.
{ destruct Hevs as [->|[n [-> _]]]; [now left | right; now exists n]. }
assert ((response <- specialist_process_query k agent generate (strip line) ;;
         print (AgentSays (SupportAgent.name agent) response) ;;;
         print AnyOtherQuestions ;;;
         ret (mk_session (system s) AtContinue)) w
        = (Return (mk_session (system s) AtContinue),
           world_after w
             (Entered k (strip line) :: evs ++
              [Printed (AgentSays (SupportAgent.name agent) response);
               Printed AnyOtherQuestions]))) as H.
{ rewrite (bind_return _ _ _ _ _ Hrun). unfold print.
  rewrite (bind_return _ _ _ _ _ (emit_eq _ _)).
  rewrite (bind_return _ _ _ _ _ (emit_eq _ _)).
  unfold ret. rewrite !world_after_app. reflexivity. }
clearbody agent. clear Hrun Hevs.
destruct k; [discriminate Hk | exact H | exact H | exact H].
Qed.

(** A line read at the query prompt by a session still bound to the triage
    agent, other than a word that quits: the triage agent runs on the
    trimmed line, its message is printed, and the session is bound to the
    specialist of the category. *)
Lemma step_triage generate line s w :
  at_pc s = AtQuery ->
  SupportSystem.current_agent (system s) = triage ->
  is_quit (strip line) = false ->
  let agent := SupportSystem.agents (system s) triage in
  exists category w',
    TriageAgent.process_query agent generate (strip line) w
    = (Return (mk_handoff category (handoff_message category)), w') /\
    In category (map value IssueType_members) /\
    fresh w' = fresh w /\
    log w' = (log w ++ [Entered triage (strip line)])%list /\
    (forall r, heap w' r = if bound_to agent r
                           then triage_write category (strip line) (heap w r)
                           else heap w r) /\
    step generate line s w
    = (Return (mk_session
                 (SupportSystem.set_current_agent (handoff_target category) (system s))
                 AtQuery),
       world_after w'
         [Printed (AgentSays (SupportAgent.name agent) (handoff_message category))]).
Proof.
intros Hpc Hk Hquit agent.
destruct (triage_spec agent generate (strip line) w)
  as [category [w' [Hrun [Hin [_ [Hfresh [Hlog Hheap]]]]]]].
exists category, w'. repeat (split; [assumption|]).
unfold step. rewrite Hpc, Hquit, Hk. fold agent.
rewrite (bind_return _ _ _ _ _ Hrun). unfold print.
now rewrite (bind_return _ _ _ _ _ (emit_eq _ _)).
Qed.

Lemma handoff_target_specialist (category : string) :
  is_specialist (handoff_target category) = true.
Proof.
unfold handoff_target.
destruct (String.eqb category (value BILLING)); [reflexivity|].
destruct (String.eqb category (value TECHNICAL)); reflexivity.
Qed.

(** A line read by a session bound to a specialist, wherever it waits: the
    step returns, the system and the store stay as they were, and the only
    agent that can have been entered is that specialist. *)
Lemma step_after_handoff generate line s w :
  is_specialist (SupportSystem.current_agent (system s)) = true ->
  exists s' evs,
    step generate line s w = (Return s', world_after w evs) /\
    system s' = system s /\
    Forall (fun a => a = SupportSystem.current_agent (system s)) (entered evs) /\
    triaged evs = 0.
Proof.
intros Hk. destruct (at_pc s) eqn:Hpc.
- destruct (is_quit (strip line)) eqn:Hquit.
  + unfold step. rewrite Hpc, Hquit, leave_eq.
    eexists _, _. split; [reflexivity|]. repeat split. constructor.
  + destruct (step_specialist generate line s w Hpc Hk Hquit)
      as [response [evs [_ [Hevs Hstep]]]].
    eexists _, _. split; [exact Hstep|]. split; [reflexivity|].
    destruct (SupportSystem.current_agent (system s)); try discriminate Hk;
      destruct Hevs as [->|[n ->]]; simpl; repeat constructor.
- unfold step. rewrite Hpc.
  destruct (is_no (lower (strip line))).
  + rewrite leave_eq. eexists _, _. split; [reflexivity|]. repeat split. constructor.
  + unfold print. rewrite (bind_return _ _ _ _ _ (emit_eq _ _)). unfold ret.
    eexists _, _. split; [reflexivity|]. repeat split. constructor.
- unfold step. rewrite Hpc. unfold ret.
  exists s, []. rewrite world_after_nil. repeat split. constructor.
Qed.

Lemma run_after_handoff turns : forall s w,
  is_specialist (SupportSystem.current_agent (system s)) = true ->
  exists s' evs,
    run turns s w = (Return s', world_after w evs) /\
    system s' = system s /\
    Forall (fun a => a = SupportSystem.current_agent (system s)) (entered evs) /\
    triaged evs = 0.
Proof.
induction turns as [|[line generate] turns IH]; intros s w Hk.
- exists s, []. simpl. unfold ret. rewrite world_after_nil. repeat split. constructor.
- destruct (step_after_handoff generate line s w Hk) as [s1 [evs1 [Hstep [Hsys [Hent Htri]]]]].
  assert (is_specialist (SupportSystem.current_agent (system s1)) = true) as Hk1
    by now rewrite Hsys.
  destruct (IH s1 (world_after w evs1) Hk1) as [s2 [evs2 [Hrun [Hsys2 [Hent2 Htri2]]]]].
  exists s2, (evs1 ++ evs2)%list.
  cbn [run]. rewrite (bind_return _ _ _ _ _ Hstep), Hrun, world_after_app.
  split; [reflexivity|]. split; [congruence|]. split.
  + rewrite entered_app. apply Forall_app. split; [exact Hent|].
    now rewrite Hsys in Hent2.
  + rewrite triaged_app. lia.
Qed.

Lemma run_returned turns : forall s w,
  at_pc s = Returned -> run turns s w = (Return s, w).
Proof.
induction turns as [|[line generate] turns IH]; intros s w Hpc; [reflexivity|].
cbn [run].
assert (step generate line s w = (Return s, w)) as Hstep
  by (unfold step; now rewrite Hpc).
rewrite (bind_return _ _ _ _ _ Hstep). now apply IH.
Qed.

Lemma awaiting_specialist_iff (s : session) :
  state_of s = AWAITING_SPECIALIST
  <-> at_pc s = AtQuery /\ is_specialist (SupportSystem.current_agent (system s)) = true.
Proof.
unfold state_of.
destruct (at_pc s); destruct (SupportSystem.current_agent (system s)); simpl;
  split; try discriminate; try tauto; intros [H1 H2]; discriminate.
Qed.

Lemma awaiting_triage_iff (s : session) :
  state_of s = AWAITING_TRIAGE
  <-> at_pc s = AtQuery /\ SupportSystem.current_agent (system s) = triage.
Proof.
unfold state_of.
destruct (at_pc s); destruct (SupportSystem.current_agent (system s)); simpl;
  split; try discriminate; try tauto; intros [H1 H2]; discriminate.
Qed.

(** ** Handoff is final *)

Lemma entries_app (a b : list event) :
  entries (a ++ b) = (entries a ++ entries b)%list.
Proof.
induction a as [|e a IH]; [reflexivity|].
destruct e as [o|k q|n q]; simpl; now rewrite ?IH.
Qed.

Lemma entered_entries (l : list event) : entered l = map fst (entries l).
Proof.
induction l as [|e l IH]; [reflexivity|].
destruct e as [o|k q|n q]; simpl; now rewrite ?IH.
Qed.

(** A script read by a session bound to a specialist: the run returns with
    the same system, and the agents entered are that specialist, once for
    each query of the script, in order, with the query. *)
Lemma run_handles turns : forall s w,
  is_specialist (SupportSystem.current_agent (system s)) = true ->
  exists s' evs,
    run turns s w = (Return s', world_after w evs) /\
    system s' = system s /\
    entries evs
    = map (pair (SupportSystem.current_agent (system s))) (handled (at_pc s) turns).
Proof.
induction turns as [|[line generate] turns IH]; intros s w Hk.
- exists s, []. cbn [run handled map]. unfold ret. now rewrite world_after_nil.
- destruct (at_pc s) eqn:Hpc.
  + destruct (is_quit (strip line)) eqn:Hquit.
    * assert (step generate line s w
              = (Return (mk_session (system s) Returned),
                 world_after w [Printed Goodbye; Printed (summary_line (system s) w)]))
        as Hstep by (unfold step; rewrite Hpc, Hquit; apply leave_eq).
      eexists _, _. split.
      { cbn [run]. rewrite (bind_return _ _ _ _ _ Hstep).
        now apply run_returned. }
      cbn [handled]. rewrite Hquit. now split.
    * destruct (step_specialist generate line s w Hpc Hk Hquit)
        as [response [evs [_ [Hevs Hstep]]]].
      match type of Hstep with _ = (_, ?w1) =>
        destruct (IH (mk_session (system s) AtContinue) w1 Hk)
          as [s2 [evs2 [Hrun [Hsys Hent]]]]
      end.
      eexists s2, _. split.
      { cbn [run]. rewrite (bind_return _ _ _ _ _ Hstep), Hrun, world_after_app.
        reflexivity. }
      split; [exact Hsys|].
      rewrite entries_app, Hent. cbn [handled system at_pc]. rewrite Hquit.
      destruct Hevs as [->|[n ->]]; reflexivity.
  + destruct (is_no (lower (strip line))) eqn:Hno.
    * assert (step generate line s w
              = (Return (mk_session (system s) Returned),
                 world_after w [Printed Goodbye; Printed (summary_line (system s) w)]))
        as Hstep by (unfold step; rewrite Hpc, Hno; apply leave_eq).
      eexists _, _. split.
      { cbn [run]. rewrite (bind_return _ _ _ _ _ Hstep).
        now apply run_returned. }
      cbn [handled]. rewrite Hno. now split.
    * assert (step generate line s w
              = (Return (mk_session (system s) AtQuery),
                 world_after w [Printed HelpFurther])) as Hstep.
      { unfold step. rewrite Hpc, Hno. unfold print.
        now rewrite (bind_return _ _ _ _ _ (emit_eq _ _)). }
      destruct (IH (mk_session (system s) AtQuery) (world_after w [Printed HelpFurther]) Hk)
        as [s2 [evs2 [Hrun [Hsys Hent]]]].
      eexists s2, _. split.
      { cbn [run]. rewrite (bind_return _ _ _ _ _ Hstep), Hrun, world_after_app.
        reflexivity. }
      split; [exact Hsys|].
      rewrite entries_app, Hent. cbn [handled system at_pc]. rewrite Hno.
      reflexivity.
  + exists s, []. split.
    { rewrite (run_returned _ _ _ Hpc). now rewrite world_after_nil. }
    split; [reflexivity|]. reflexivity.
Qed.

(** C6, as the code has it.  From a session waiting for triage, a line that
    is no quit word hands it off to a specialist; from there, whatever lines
    follow and whatever the classifier does, the run returns with the same
    system, bound to that same specialist, never waiting for triage again.
    The agents entered are that specialist, once for each line read at the
    query prompt that is no quit word, in order and with the trimmed line,
    up to the line that ends the session; no other line enters an agent (a
    quit word ends the session, the answer to whether to go on enters none),
    and the triage agent is never run again. *)
Theorem never_back_to_triage (generate : classifier) (line : string) (s : session)
  (w : world) (turns : list turn) :
  state_of s = AWAITING_TRIAGE ->
  is_quit (strip line) = false ->
  exists s1 w1,
    step generate line s w = (Return s1, w1) /\
    state_of s1 = AWAITING_SPECIALIST /\
    exists s2 evs,
      run turns s1 w1 = (Return s2, world_after w1 evs) /\
      state_of s2 <> AWAITING_TRIAGE /\
      system s2 = system s1 /\
      SupportSystem.current_agent (system s2) = SupportSystem.current_agent (system s1) /\
      entries evs
      = map (pair (SupportSystem.current_agent (system s1))) (handled AtQuery turns) /\
      Forall (fun a => a = SupportSystem.current_agent (system s1)) (entered evs) /\
      ~ In triage (entered evs).
Proof.
intros Hstate Hquit. apply awaiting_triage_iff in Hstate as [Hpc Hk].
destruct (step_triage generate line s w Hpc Hk Hquit)
  as [category [w' [_ [_ [_ [_ [_ Hstep]]]]]]].
eexists _, _. split; [exact Hstep|].
pose proof (handoff_target_specialist category) as Hsp.
split; [apply awaiting_specialist_iff; now split|].
match goal with |- context [run turns ?s1 ?w1] =>
  destruct (run_handles turns s1 w1 Hsp) as [s2 [evs [Hrun [Hsys Hent]]]]
end.
cbn [at_pc] in Hent.
exists s2, evs. split; [exact Hrun|].
assert (is_specialist (SupportSystem.current_agent (system s2)) = true) as Hsp2
  by (rewrite Hsys; exact Hsp).
assert (Forall (fun a => a = handoff_target category) (entered evs)) as Hall.
{ rewrite entered_entries, Hent, map_map. cbn [fst system
    SupportSystem.set_current_agent SupportSystem.current_agent].
  apply Forall_forall. intros a Ha. apply in_map_iff in Ha as [q [<- _]]. reflexivity. }
split; [|split; [exact Hsys|split; [now rewrite Hsys|split; [exact Hent|split;
  [exact Hall|]]]]].
- intros Hback. apply awaiting_triage_iff in Hback as [_ Hback].
  rewrite Hback in Hsp2. discriminate Hsp2.
- intros Hin. rewrite Forall_forall in Hall. apply Hall in Hin.
  rewrite <- Hin in Hsp. discriminate Hsp.
Qed.

Lemma never_back_to_triage_witness :
  exists s1 w1 s2 evs,
    step (says "billing") "I was charged twice this month" first_session
      (world_with UserContext.default) = (Return s1, w1) /\
    run [("refund please", says "TOOL:process_refund"); ("yes", fails);
         ("  my app crashes ", says "technical"); ("sure", fails);
         ("bye", fails); ("what now?", fails)] s1 w1
    = (Return s2, world_after w1 evs) /\
    state_of s2 <> AWAITING_TRIAGE /\
    entries evs = [(billing, "refund please"); (billing, "my app crashes")] /\
    ~ In triage (entered evs).
Proof.
destruct (never_back_to_triage (says "billing") "I was charged twice this month"
            first_session (world_with UserContext.default)
            [("refund please", says "TOOL:process_refund"); ("yes", fails);
             ("  my app crashes ", says "technical"); ("sure", fails);
             ("bye", fails); ("what now?", fails)] eq_refl eq_refl)
  as [s1 [w1 [Hstep [_ [s2 [evs [Hrun [Hstate [_ [Hsame [Hent [_ Hno]]]]]]]]]]]].
exists s1, w1, s2, evs.
split; [exact Hstep|]. split; [exact Hrun|]. split; [exact Hstate|].
split; [|exact Hno].
rewrite Hent.
pose proof Hstep as Hstep'. vm_compute in Hstep'. injection Hstep' as <- <-.
reflexivity.
Defined.

(** C6, as stated, fails: of the two lines typed after the handoff, the
    second, the answer to whether to go on, is processed by no agent; the
    bound specialist is entered once, with the first. *)
Lemma continue_answer_reaches_no_agent :
  length three_turns = 3 /\
  state_of first_session = AWAITING_TRIAGE /\
  fst (run three_turns first_session (world_with UserContext.default))
  = Return billing_session /\
  state_of billing_session = AWAITING_SPECIALIST /\
  entries (log (snd (run three_turns first_session (world_with UserContext.default))))
  = [(triage, "I was charged twice this month"); (billing, "refund please")].
Proof.
repeat split.
Qed.

(** ** The specialist's turn *)

(** C7, as the code has it.  In a session waiting at the query prompt and
    bound to a specialist, every line that trimmed and lowercased is not
    quit, exit or bye makes that specialist run on the trimmed line, prints
    its reply under its name and leaves the session asking whether to go on,
    with the same system and store; a line that is one of the three words
    ends the session with the goodbye and the summary, no agent entered. *)
Theorem specialist_turn_runs_handler (generate : classifier) (line : string)
  (s : session) (w : world) :
  state_of s = AWAITING_SPECIALIST ->
  let k := SupportSystem.current_agent (system s) in
  let agent := SupportSystem.agents (system s) k in
  (is_quit (strip line) = false ->
   exists response evs s',
     specialist_process_query k agent generate (strip line) w
     = (Return response, world_after w (Entered k (strip line) :: evs)) /\
     step generate line s w
     = (Return s',
        world_after w
          (Entered k (strip line) :: evs ++
           [Printed (AgentSays (SupportAgent.name agent) response);
            Printed AnyOtherQuestions])) /\
     state_of s' = AWAITING_CONTINUE /\
     system s' = system s) /\
  (is_quit (strip line) = true ->
   exists s',
     step generate line s w
     = (Return s',
        world_after w [Printed Goodbye; Printed (summary_line (system s) w)]) /\
     state_of s' = ENDED).
Proof.
intros Hstate. apply awaiting_specialist_iff in Hstate as [Hpc Hk].
cbv zeta. split; intros Hquit.
- destruct (step_specialist generate line s w Hpc Hk Hquit)
    as [response [evs [Hrun [_ Hstep]]]].
  exists response, evs, (mk_session (system s) AtContinue).
  repeat split; assumption.
- exists (mk_session (system s) Returned). split; [|reflexivity].
  unfold step. rewrite Hpc, Hquit. apply leave_eq.
Qed.

Lemma specialist_turn_runs_handler_witness :
  (exists response evs s',
     step (says "TOOL:explain_charges") " What is this charge? " billing_session
       (world_with basic_user)
     = (Return s',
        world_after (world_with basic_user)
          (Entered billing "What is this charge?" :: evs ++
           [Printed (AgentSays "Billing Agent" response); Printed AnyOtherQuestions])) /\
     state_of s' = AWAITING_CONTINUE) /\
  (exists s',
     step (says "TOOL:explain_charges") "Exit" billing_session (world_with basic_user)
     = (Return s',
        world_after (world_with basic_user)
          [Printed Goodbye;
           Printed (Summary "Aamna" false (Some "billing") 1)]) /\
     state_of s' = ENDED).
Proof.
pose proof (specialist_turn_runs_handler (says "TOOL:explain_charges")
              " What is this charge? " billing_session (world_with basic_user) eq_refl)
  as [Hrun _].
pose proof (specialist_turn_runs_handler (says "TOOL:explain_charges")
              "Exit" billing_session (world_with basic_user) eq_refl)
  as [_ Hquit].
split.
- destruct (Hrun eq_refl) as [response [evs [s' [_ [Hstep [Hstate _]]]]]].
  exists response, evs, s'. split; [exact Hstep | exact Hstate].
- destruct (Hquit eq_refl) as [s' [Hstep Hstate]].
  exists s'. split; [exact Hstep | exact Hstate].
Defined.

(** C7, as stated, fails: in a session bound to the billing specialist and
    waiting at the query prompt, the line quit ends the session; the
    specialist is not entered and the session never asks whether to go
    on. *)
Lemma quit_bypasses_the_specialist :
  state_of billing_session = AWAITING_SPECIALIST /\
  step (says "TOOL:process_refund") "quit" billing_session (world_with premium_user)
  = (Return (mk_session (system billing_session) Returned),
     world_after (world_with premium_user)
       [Printed Goodbye; Printed (Summary "Aamna" true (Some "billing") 1)]) /\
  state_of (mk_session (system billing_session) Returned) = ENDED /\
  state_of (mk_session (system billing_session) Returned) <> AWAITING_CONTINUE /\
  entered [Printed Goodbye; Printed (Summary "Aamna" true (Some "billing") 1)] = [].
Proof.
repeat split. discriminate.
Qed.

(** ** The query count of the summary *)

Lemma counted_leave (s : session) (w : world) :
  counted s w -> at_pc s <> Returned ->
  counted (mk_session (system s) Returned)
    (world_after w [Printed Goodbye; Printed (summary_line (system s) w)]).
Proof.
intros [Hctx [Hlen Hsum]] Hpc. unfold counted. cbn [system at_pc world_after heap log].
split; [exact Hctx|].
rewrite triaged_app, summaries_app. cbn [triaged summary_line summaries].
rewrite Nat.add_0_r. split; [exact Hlen|].
rewrite Hsum, Hlen. destruct (at_pc s); [reflexivity | reflexivity | contradiction].
Qed.

Lemma counted_quiet (s s' : session) (w : world) (evs : list event) :
  counted s w -> system s' = system s ->
  at_pc s <> Returned -> at_pc s' <> Returned ->
  triaged evs = 0 -> summaries evs = [] ->
  counted s' (world_after w evs).
Proof.
intros [Hctx [Hlen Hsum]] Hsys Hpc Hpc' Htri Hnone. unfold counted.
rewrite Hsys. cbn [world_after heap log].
split; [exact Hctx|].
rewrite triaged_app, summaries_app, Htri, Hnone, Nat.add_0_r, app_nil_r.
split; [exact Hlen|].
rewrite Hsum. destruct (at_pc s), (at_pc s'); try reflexivity; contradiction.
Qed.

(** One line keeps the count in step with the log. *)
Lemma step_counted generate line s w :
  counted s w ->
  exists s' w', step generate line s w = (Return s', w') /\ counted s' w'.
Proof.
intros Hc. destruct (at_pc s) eqn:Hpc.
- destruct (is_quit (strip line)) eqn:Hquit.
  + eexists _, _. split.
    * unfold step. rewrite Hpc, Hquit. apply leave_eq.
    * apply counted_leave; [exact Hc | now rewrite Hpc].
  + destruct (is_specialist (SupportSystem.current_agent (system s))) eqn:Hk.
    * destruct (step_specialist generate line s w Hpc Hk Hquit)
        as [response [evs [_ [Hevs Hstep]]]].
      eexists _, _. split; [exact Hstep|].
      apply (counted_quiet s); [exact Hc | reflexivity | now rewrite Hpc | discriminate | | ].
      -- destruct (SupportSystem.current_agent (system s)); try discriminate Hk;
           destruct Hevs as [->|[n ->]]; reflexivity.
      -- destruct Hevs as [->|[n ->]]; reflexivity.
    * assert (SupportSystem.current_agent (system s) = triage) as Ht
        by (destruct (SupportSystem.current_agent (system s)); now try discriminate Hk).
      destruct (step_triage generate line s w Hpc Ht Hquit)
        as [category [w' [_ [_ [_ [Hlog [Hheap Hstep]]]]]]].
      eexists _, _. split; [exact Hstep|].
      destruct Hc as [Hctx [Hlen Hsum]]. unfold counted.
      cbn [system at_pc world_after heap log SupportSystem.set_current_agent
           SupportSystem.agents SupportSystem.context].
      split; [exact Hctx|].
      rewrite Hheap. unfold bound_to. rewrite Hctx, Nat.eqb_refl.
      rewrite Hlog, !triaged_app, !summaries_app. cbn [triaged summaries].
      rewrite Hpc in Hsum. rewrite Hsum. split; [|reflexivity].
      unfold triage_write. cbn [UserContext.previous_queries
        UserContext.append_previous_queries UserContext.set_issue_type].
      rewrite length_app. cbn [length]. lia.
- unfold step. rewrite Hpc. destruct (is_no (lower (strip line))).
  + eexists _, _. split; [apply leave_eq|].
    apply counted_leave; [exact Hc | now rewrite Hpc].
  + eexists _, _. split.
    * unfold print. rewrite (bind_return _ _ _ _ _ (emit_eq _ _)). reflexivity.
    * apply (counted_quiet s);
        [exact Hc | reflexivity | now rewrite Hpc | discriminate | reflexivity | reflexivity].
- exists s, w. split; [|exact Hc]. unfold step. now rewrite Hpc.
Qed.

Lemma run_counted turns : forall s w,
  counted s w ->
  exists s' w', run turns s w = (Return s', w') /\ counted s' w'.
Proof.
induction turns as [|[line generate] turns IH]; intros s w Hc.
- now exists s, w.
- destruct (step_counted generate line s w Hc) as [s1 [w1 [Hstep Hc1]]].
  destruct (IH s1 w1 Hc1) as [s2 [w2 [Hrun Hc2]]].
  exists s2, w2. split; [|exact Hc2].
  cbn [run]. now rewrite (bind_return _ _ _ _ _ Hstep).
Qed.

(** The main block leaves a session waiting for its first line, with the
    banner printed and nothing counted. *)
Lemma main_counted premium h f :
  exists s w,
    main premium (mk_world h f []) = (Return s, w) /\
    counted s w /\ state_of s = AWAITING_TRIAGE /\ log w = [Printed Welcome] /\
    summary_line (system s) w = Summary "Aamna" premium None 0.
Proof.
eexists _, _. split; [reflexivity|].
unfold counted, summary_line. cbn. rewrite Nat.eqb_refl. now repeat split.
Qed.

(** A quit word at the query prompt ends the session, whatever follows. *)
Lemma run_quit_first generate line rest s w :
  at_pc s = AtQuery -> is_quit (strip line) = true ->
  run ((line, generate) :: rest) s w
  = (Return (mk_session (system s) Returned),
     world_after w [Printed Goodbye; Printed (summary_line (system s) w)]).
Proof.
intros Hpc Hquit. cbn [run].
assert (step generate line s w = leave s w) as Hstep
  by (unfold step; now rewrite Hpc, Hquit).
rewrite leave_eq in Hstep. rewrite (bind_return _ _ _ _ _ Hstep).
now apply run_returned.
Qed.

(** C8.  Whatever lines are typed and whatever the classifier does, the
    session started by the main block runs without raising; if it has ended,
    one summary was printed and its query count is the number of queries
    the log shows entering the triage agent (entries into a specialist do
    not count); if it has not ended, no summary was printed; and when the
    first line is a quit word the session ends there, the summary printed
    with a count of zero and no agent entered. *)
Theorem summary_counts_triaged_queries (premium : bool) (turns : list turn)
  (h : ref -> UserContext.t) (f : ref) :
  exists s w,
    boot premium turns (mk_world h f []) = (Return s, w) /\
    (state_of s = ENDED -> summaries (log w) = [triaged (log w)]) /\
    (state_of s <> ENDED -> summaries (log w) = []) /\
    (forall line generate rest,
       turns = (line, generate) :: rest ->
       is_quit (strip line) = true ->
       state_of s = ENDED /\
       log w = [Printed Welcome; Printed Goodbye;
                Printed (Summary "Aamna" premium None 0)]).
Proof.
destruct (main_counted premium h f) as [s0 [w0 [Hmain [Hc0 [Hs0 [Hlog0 Hline]]]]]].
destruct (run_counted turns s0 w0 Hc0) as [s [w [Hrun [_ [_ Hsum]]]]].
exists s, w. split.
{ unfold boot. now rewrite (bind_return _ _ _ _ _ Hmain). }
unfold state_of. split; [|split].
- destruct (at_pc s); try discriminate; [|intros _; exact Hsum].
  destruct (SupportSystem.current_agent (system s)); discriminate.
- destruct (at_pc s); try exact (fun _ => Hsum). intros H. now contradiction H.
- intros line generate rest -> Hquit.
  apply awaiting_triage_iff in Hs0 as [Hpc0 _].
  rewrite (run_quit_first generate line rest s0 w0 Hpc0 Hquit) in Hrun.
  injection Hrun as <- <-.
  cbn [at_pc world_after log]. now rewrite Hlog0, Hline.
Qed.

Lemma summary_counts_triaged_queries_witness :
  (exists s w,
     boot true [("quit", fails)] empty_world = (Return s, w) /\
     state_of s = ENDED /\
     log w = [Printed Welcome; Printed Goodbye; Printed (Summary "Aamna" true None 0)]) /\
  (exists s w,
     boot true [("I was charged twice this month", says "billing");
                ("refund please", says "TOOL:process_refund"); ("yes", fails);
                ("and explain the charge", says "TOOL:explain_charges"); ("no", fails)]
       empty_world = (Return s, w) /\
     summaries (log w) = [1] /\
     entered (log w) = [triage; billing; billing]).
Proof.
split.
- destruct (summary_counts_triaged_queries true [("quit", fails)]
              (fun _ => UserContext.default) 0) as [s [w [Hrun [_ [_ Hquit]]]]].
  exists s, w. split; [exact Hrun|].
  exact (Hquit "quit" fails [] eq_refl eq_refl).
- destruct (summary_counts_triaged_queries true
              [("I was charged twice this month", says "billing");
               ("refund please", says "TOOL:process_refund"); ("yes", fails);
               ("and explain the charge", says "TOOL:explain_charges"); ("no", fails)]
              (fun _ => UserContext.default) 0) as [s [w [Hrun [Hend _]]]].
  exists s, w. split; [exact Hrun|].
  change (mk_world (fun _ => UserContext.default) 0 []) with empty_world in Hrun.
  vm_compute in Hrun. injection Hrun as <- <-.
  split; [|reflexivity].
  rewrite Hend; reflexivity.
Defined.

(** ** The frame of a specialist *)

(** C10.  Whatever the classifier does, a specialist's [process_query]
    returns and leaves every context object as it was: name, premium flag,
    category and prior queries, at every address; it only adds to the log.
    The triage agent's does write: it sets the category and appends the
    query in the object it is bound to, and leaves the other objects.  And
    once a session is bound to a specialist, no run of the loop changes the
    store. *)
Theorem specialists_leave_the_context :
  (forall k self generate query w,
     is_specialist k = true ->
     exists response w',
       specialist_process_query k self generate query w = (Return response, w') /\
       heap w' = heap w /\
       forall r,
         UserContext.name (heap w' r) = UserContext.name (heap w r) /\
         UserContext.is_premium_user (heap w' r) = UserContext.is_premium_user (heap w r) /\
         UserContext.issue_type (heap w' r) = UserContext.issue_type (heap w r) /\
         UserContext.previous_queries (heap w' r) = UserContext.previous_queries (heap w r)) /\
  (forall self generate query w r,
     SupportAgent.context self = Some r ->
     exists d w',
       TriageAgent.process_query self generate query w = (Return d, w') /\
       UserContext.issue_type (heap w' r) = Some (issue_type d) /\
       UserContext.previous_queries (heap w' r)
       = (UserContext.previous_queries (heap w r) ++ [query])%list /\
       UserContext.name (heap w' r) = UserContext.name (heap w r) /\
       UserContext.is_premium_user (heap w' r) = UserContext.is_premium_user (heap w r) /\
       forall r', r' <> r -> heap w' r' = heap w r') /\
  (forall turns s w,
     is_specialist (SupportSystem.current_agent (system s)) = true ->
     exists s' w', run turns s w = (Return s', w') /\ heap w' = heap w).
Proof.
split; [|split].
- intros k self generate query w Hk.
  destruct (specialist_spec k self generate query w Hk) as [response [evs [Hrun _]]].
  exists response, (world_after w (Entered k query :: evs)).
  split; [exact Hrun|]. split; [reflexivity|]. intros r. now repeat split.
- intros self generate query w r Hctx.
  destruct (triage_spec self generate query w)
    as [category [w' [Hrun [_ [_ [_ [_ Hheap]]]]]]].
  exists (mk_handoff category (handoff_message category)), w'.
  split; [exact Hrun|].
  pose proof (Hheap r) as Hr. unfold bound_to in Hr. rewrite Hctx, Nat.eqb_refl in Hr.
  rewrite Hr. repeat split.
  intros r' Hne. rewrite Hheap. unfold bound_to. rewrite Hctx.
  apply Nat.eqb_neq in Hne. now rewrite Hne.
- intros turns s w Hk.
  destruct (run_after_handoff turns s w Hk) as [s' [evs [Hrun _]]].
  now exists s', (world_after w evs).
Qed.

Lemma specialists_leave_the_context_witness :
  (exists response w',
     BillingAgent.process_query (bound BillingAgent.init) (says "TOOL:process_refund")
       "refund me" (world_with premium_user) = (Return response, w') /\
     heap w' = heap (world_with premium_user)) /\
  (exists d w',
     TriageAgent.process_query (bound TriageAgent.init) (says "technical")
       "it crashes" (world_with UserContext.default) = (Return d, w') /\
     UserContext.previous_queries (heap w' 0) = ["it crashes"]).
Proof.
split.
- destruct (proj1 specialists_leave_the_context billing (bound BillingAgent.init)
              (says "TOOL:process_refund") "refund me" (world_with premium_user) eq_refl)
    as [response [w' [Hrun [Hheap _]]]].
  exists response, w'. now split.
- destruct (proj1 (proj2 specialists_leave_the_context) (bound TriageAgent.init)
              (says "technical") "it crashes" (world_with UserContext.default) 0 eq_refl)
    as [d [w' [Hrun [_ [Hq _]]]]].
  exists d, w'. now split.
Defined.

(** * Further properties of the code *)

(** ** The other branches of a specialist *)

(** X1.  When the classifier's trimmed answer does not start with TOOL:
    (the test is case sensitive), the specialist returns that trimmed answer
    as it is, runs no tool and leaves the store. *)
Theorem specialist_replies_verbatim (k : agent_key) (self : SupportAgent.t)
  (generate : classifier) (query : string) (w : world) (text : string) :
  is_specialist k = true ->
  answer_to k self generate query w = Return text ->
  startswith (strip text) "TOOL:" = false ->
  specialist_process_query k self generate query w
  = (Return (strip text), world_after w [Entered k query]).
Proof.
intros Hk Hanswer Hstart.
destruct (specialist_spec k self generate query w Hk) as [response [evs [Hrun Hcase]]].
rewrite Hanswer, Hstart in Hcase. destruct Hcase as [-> ->]. exact Hrun.
Qed.

Lemma specialist_replies_verbatim_witness :
  GeneralAgent.process_query (bound GeneralAgent.init)
    (says "  We are open from nine to five. ") "opening hours?" empty_world
  = (Return "We are open from nine to five.",
     world_after empty_world [Entered general "opening hours?"]) /\
  BillingAgent.process_query (bound BillingAgent.init)
    (says "tool:explain_charges") "what is this charge?" (world_with premium_user)
  = (Return "tool:explain_charges",
     world_after (world_with premium_user) [Entered billing "what is this charge?"]).
Proof.
split.
- exact (specialist_replies_verbatim general (bound GeneralAgent.init)
           (says "  We are open from nine to five. ") "opening hours?" empty_world
           "  We are open from nine to five. " eq_refl eq_refl eq_refl).
- exact (specialist_replies_verbatim billing (bound BillingAgent.init)
           (says "tool:explain_charges") "what is this charge?" (world_with premium_user)
           "tool:explain_charges" eq_refl eq_refl eq_refl).
Defined.

(** X2.  When the classifier call raises, the specialist does not: it
    returns its apology followed by the text of the exception, runs no tool
    and leaves the store. *)
Theorem specialist_apologises_on_failure (k : agent_key) (self : SupportAgent.t)
  (generate : classifier) (query : string) (w : world) (e : exn) :
  is_specialist k = true ->
  answer_to k self generate query w = Raise e ->
  specialist_process_query k self generate query w
  = (Return (apology_of k ++ exc_str e), world_after w [Entered k query]).
Proof.
intros Hk Hanswer.
destruct (specialist_spec k self generate query w Hk) as [response [evs [Hrun Hcase]]].
rewrite Hanswer in Hcase. destruct Hcase as [-> ->]. exact Hrun.
Qed.

Lemma specialist_apologises_on_failure_witness :
  TechnicalAgent.process_query (bound TechnicalAgent.init) fails "it crashes"
    (world_with technical_user)
  = (Return "I apologize, I encountered an error processing your technical request: service unavailable",
     world_after (world_with technical_user) [Entered technical "it crashes"]).
Proof.
exact (specialist_apologises_on_failure technical (bound TechnicalAgent.init) fails
         "it crashes" (world_with technical_user)
         (mk_exn "RuntimeError" "service unavailable") eq_refl eq_refl).
Defined.

(** ** Which tools a specialist can run *)

Lemma dict_contains_keys {V} (n : string) (d : dict V) :
  dict_contains n d = true -> In n (keys d).
Proof.
unfold dict_contains, keys. rewrite existsb_exists.
intros [[n' v] [Hin E]]. apply String.eqb_eq in E. cbn [fst] in E. subst n'.
apply (in_map fst) in Hin. exact Hin.
Qed.

(** X3.  A specialist runs at most one tool for a query, with the query as
    it got it; the tool it runs is one of those it listed as available for
    that query, and the reply then reports that tool by name.  So the
    classifier cannot make a specialist run a tool that was not offered. *)
Theorem tool_run_was_offered (k : agent_key) (self : SupportAgent.t)
  (generate : classifier) (query : string) (w : world) :
  is_specialist k = true ->
  exists available response evs,
    get_available_tools_of k self w = (Return available, w) /\
    specialist_process_query k self generate query w
    = (Return response, world_after w (Entered k query :: evs)) /\
    (evs = [] \/
     exists tool_name tool_response,
       evs = [ToolRun tool_name query] /\
       In tool_name available /\
       response = "Used " ++ tool_name ++ ": " ++ tool_response).
Proof.
intros Hk.
destruct (specialist_spec k self generate query w Hk) as [response [evs [Hrun Hcase]]].
exists (eval (get_available_tools_of k self) w []), response, evs.
split; [apply (reads_eval _ [] w (get_available_tools_of_reads k self))|].
split; [exact Hrun|].
destruct (answer_to k self generate query w) as [text|e]; [|left; apply Hcase].
destruct (startswith (strip text) "TOOL:"); [|left; apply Hcase].
cbv zeta in Hcase.
destruct (dict_contains _ (tools_of k)) eqn:Hc; cbn [andb] in Hcase; [|left; apply Hcase].
destruct (eval (is_tool_enabled_of k self _) w false) eqn:He; [|left; apply Hcase].
destruct Hcase as [t [tool_response [_ [_ [-> ->]]]]].
right. eexists _, tool_response. split; [reflexivity|]. split; [|reflexivity].
apply available_iff_enabled. split; [now apply dict_contains_keys | exact He].
Qed.

Lemma tool_run_was_offered_witness :
  exists available response evs,
    BillingAgent.get_available_tools (bound BillingAgent.init) (world_with basic_user)
    = (Return available, world_with basic_user) /\
    BillingAgent.process_query (bound BillingAgent.init) (says "TOOL:update_subscription")
      "switch me to yearly" (world_with basic_user)
    = (Return response,
       world_after (world_with basic_user)
         (Entered billing "switch me to yearly" :: evs)) /\
    (evs = [] \/
     exists tool_name tool_response,
       evs = [ToolRun tool_name "switch me to yearly"] /\
       In tool_name available /\
       response = "Used " ++ tool_name ++ ": " ++ tool_response).
Proof.
exact (tool_run_was_offered billing (bound BillingAgent.init)
         (says "TOOL:update_subscription") "switch me to yearly" (world_with basic_user)
         eq_refl).
Defined.

Lemma ungated_is_enabled k self n w :
  n <> "process_refund" -> n <> "restart_service" ->
  eval (is_tool_enabled_of k self n) w false = true.
Proof.
intros Hr Hs. unfold eval.
destruct k; try reflexivity; cbn [is_tool_enabled_of].
- unfold BillingAgent.is_tool_enabled.
  destruct (String.eqb n "process_refund") eqn:E; [|reflexivity].
  apply String.eqb_eq in E. contradiction.
- unfold TechnicalAgent.is_tool_enabled.
  destruct (String.eqb n "restart_service") eqn:E; [|reflexivity].
  apply String.eqb_eq in E. contradiction.
Qed.

(** X4.  Only process_refund and restart_service are gated: any other name
    of a specialist's registry is listed as available and, asked for by the
    classifier, is run and reported, whatever the context holds and even for
    an agent bound to no context. *)
Theorem ungated_tools_always_run (k : agent_key) (self : SupportAgent.t)
  (generate : classifier) (query : string) (w : world) (text tool_name : string) :
  is_specialist k = true ->
  dict_contains tool_name (tools_of k) = true ->
  tool_name <> "process_refund" ->
  tool_name <> "restart_service" ->
  In tool_name (eval (get_available_tools_of k self) w []) /\
  (answer_to k self generate query w = Return text ->
   startswith (strip text) "TOOL:" = true ->
   tool_name_of (strip text) w = (Return tool_name, w) ->
   exists tool_response,
     specialist_process_query k self generate query w
     = (Return ("Used " ++ tool_name ++ ": " ++ tool_response),
        world_after w [Entered k query; ToolRun tool_name query])).
Proof.
intros Hk Hc Hr Hs.
pose proof (ungated_is_enabled k self tool_name w Hr Hs) as He.
split.
- apply available_iff_enabled. split; [now apply dict_contains_keys | exact He].
- intros Hanswer Hstart Hname.
  destruct (specialist_uses k self generate query w text tool_name Hk Hanswer Hstart Hname)
    as [t [tool_response [_ [_ Hrun]]]].
  { now rewrite Hc, He. }
  now exists tool_response.
Qed.

Lemma ungated_tools_always_run_witness :
  In "reset_password"
    (eval (TechnicalAgent.get_available_tools TechnicalAgent.init) empty_world []) /\
  exists tool_response,
    TechnicalAgent.process_query TechnicalAgent.init (says "TOOL: reset_password")
      "I forgot my password" empty_world
    = (Return ("Used reset_password: " ++ tool_response),
       world_after empty_world
         [Entered technical "I forgot my password";
          ToolRun "reset_password" "I forgot my password"]).
Proof.
pose proof (ungated_tools_always_run technical TechnicalAgent.init
              (says "TOOL: reset_password") "I forgot my password" empty_world
              "TOOL: reset_password" "reset_password" eq_refl eq_refl) as H.
destruct H as [Hlisted Hrun]; [discriminate | discriminate |].
split; [exact Hlisted|].
exact (Hrun eq_refl eq_refl eq_refl).
Defined.

(** ** Agents bound to no context *)

(** X5.  An agent that was never given a context still works.  The triage
    agent returns its category and writes nowhere; the billing agent does
    not list process_refund and never runs it, and the technical agent does
    not list restart_service and never runs it, whatever the classifier
    answers. *)
Theorem unbound_agents_keep_the_gates_shut (self : SupportAgent.t)
  (generate : classifier) (query : string) (w : world) :
  SupportAgent.context self = None ->
  (exists d w',
     TriageAgent.process_query self generate query w = (Return d, w') /\
     In (issue_type d) ["billing"; "technical"; "general"] /\
     log w' = (log w ++ [Entered triage query])%list /\
     forall r, heap w' r = heap w r) /\
  (~ In "process_refund" (eval (BillingAgent.get_available_tools self) w []) /\
   exists response evs,
     BillingAgent.process_query self generate query w
     = (Return response, world_after w evs) /\
     ~ In "process_refund" (tool_runs evs)) /\
  (~ In "restart_service" (eval (TechnicalAgent.get_available_tools self) w []) /\
   exists response evs,
     TechnicalAgent.process_query self generate query w
     = (Return response, world_after w evs) /\
     ~ In "restart_service" (tool_runs evs)).
Proof.
intros Hctx.
assert (eval (BillingAgent.is_tool_enabled self "process_refund") w false = false) as Hb
  by (unfold eval, BillingAgent.is_tool_enabled; simpl; now rewrite Hctx).
assert (eval (TechnicalAgent.is_tool_enabled self "restart_service") w false = false) as Ht
  by (unfold eval, TechnicalAgent.is_tool_enabled; simpl; now rewrite Hctx).
split; [|split].
- destruct (triage_spec self generate query w)
    as [category [w' [Hrun [Hin [_ [_ [Hlog Hheap]]]]]]].
  exists (mk_handoff category (handoff_message category)), w'.
  split; [exact Hrun|]. split; [exact Hin|]. split; [exact Hlog|].
  intros r. rewrite Hheap. unfold bound_to. now rewrite Hctx.
- split.
  + intros Hin. apply (available_iff_enabled billing) in Hin as [_ Hen].
    cbn [is_tool_enabled_of] in Hen. rewrite Hb in Hen. discriminate Hen.
  + destruct (specialist_runs_enabled billing self generate query w eq_refl)
      as [response [evs [Hrun Hevs]]].
    exists response, (Entered billing query :: evs). split; [exact Hrun|].
    destruct Hevs as [->|[tool_name [-> [_ Hen]]]]; simpl; [tauto|].
    intros [E|[]]. subst tool_name. cbn [is_tool_enabled_of] in Hen.
    rewrite Hb in Hen. discriminate Hen.
- split.
  + intros Hin. apply (available_iff_enabled technical) in Hin as [_ Hen].
    cbn [is_tool_enabled_of] in Hen. rewrite Ht in Hen. discriminate Hen.
  + destruct (specialist_runs_enabled technical self generate query w eq_refl)
      as [response [evs [Hrun Hevs]]].
    exists response, (Entered technical query :: evs). split; [exact Hrun|].
    destruct Hevs as [->|[tool_name [-> [_ Hen]]]]; simpl; [tauto|].
    intros [E|[]]. subst tool_name. cbn [is_tool_enabled_of] in Hen.
    rewrite Ht in Hen. discriminate Hen.
Qed.

Lemma unbound_agents_keep_the_gates_shut_witness :
  (exists d w',
     TriageAgent.process_query TriageAgent.init (says "technical") "it crashes"
       (world_with premium_user) = (Return d, w') /\
     forall r, heap w' r = heap (world_with premium_user) r) /\
  ~ In "restart_service"
      (eval (TechnicalAgent.get_available_tools TechnicalAgent.init)
         (world_with technical_user) []).
Proof.
split.
- destruct (proj1 (unbound_agents_keep_the_gates_shut TriageAgent.init
                     (says "technical") "it crashes" (world_with premium_user) eq_refl))
    as [d [w' [Hrun [_ [_ Hheap]]]]].
  exists d, w'. now split.
- exact (proj1 (proj2 (proj2 (unbound_agents_keep_the_gates_shut TechnicalAgent.init
                                fails "it crashes" (world_with technical_user) eq_refl)))).
Defined.

(** ** The simulated tools *)

(** X6.  Every tool of every registry is a canned reply: its function
    returns one fixed text, the same for every query and every state,
    never raises, and leaves the store; it only logs its run, under the name
    it is registered by. *)
Theorem registry_tools_are_canned (k : agent_key) (tool_name : string) (t : tool) :
  In (tool_name, t) (tools_of k) ->
  exists text,
    forall query w,
      function t query w = (Return text, world_after w [ToolRun tool_name query]).
Proof.
intros Hin.
destruct k; simpl in Hin;
  repeat (destruct Hin as [Hin|Hin]; [inversion Hin; subst; eexists; reflexivity|]);
  contradiction.
Qed.

Lemma registry_tools_are_canned_witness :
  exists text,
    forall query w,
      TechnicalAgent.check_status query w
      = (Return text, world_after w [ToolRun "check_status" query]).
Proof.
exact (registry_tools_are_canned technical "check_status"
         (mk_tool TechnicalAgent.check_status "Check the status of services")
         (or_intror (or_intror (or_introl eq_refl)))).
Defined.

(** ** Triage: the recognised categories *)

Lemma In_str_in (x : string) (l : list string) : In x l -> str_in x l = true.
Proof.
intros H. unfold str_in. apply existsb_exists. exists x. split; [exact H|].
apply String.eqb_refl.
Qed.

(** X7.  In a session waiting for triage, when the classifier's answer,
    trimmed and lowercased, is one of the three tokens, a line that is no
    quit word is triaged as that category: the triage agent is entered with
    the trimmed line, its message naming the category is printed under its
    name, the context the agent is bound to gets the category and the
    trimmed line appended, and the session is bound to the specialist of
    that name, waiting for the next query. *)
Theorem triage_routes_to_the_named_specialist (generate : classifier) (line : string)
  (s : session) (w : world) (text : string) :
  state_of s = AWAITING_TRIAGE ->
  is_quit (strip line) = false ->
  generate (TriageAgent.prompt (strip line)) = Return text ->
  let category := lower (strip text) in
  let agent := SupportSystem.agents (system s) triage in
  In category ["billing"; "technical"; "general"] ->
  exists s' w',
    step generate line s w = (Return s', w') /\
    state_of s' = AWAITING_SPECIALIST /\
    (category = "billing" -> SupportSystem.current_agent (system s') = billing) /\
    (category = "technical" -> SupportSystem.current_agent (system s') = technical) /\
    (category = "general" -> SupportSystem.current_agent (system s') = general) /\
    log w' = (log w ++ [Entered triage (strip line);
                        Printed (AgentSays (SupportAgent.name agent)
                                   (handoff_message category))])%list /\
    forall r, heap w' r = if bound_to agent r
                          then triage_write category (strip line) (heap w r)
                          else heap w r.
Proof.
intros Hstate Hquit Hanswer category agent Hin.
apply awaiting_triage_iff in Hstate as [Hpc Hk].
destruct (triage_spec agent generate (strip line) w)
  as [category' [w' [Hrun [_ [Hcase [_ [Hlog Hheap]]]]]]].
rewrite Hanswer in Hcase. fold category in Hcase.
change (map value IssueType_members) with ["billing"; "technical"; "general"] in Hcase.
rewrite (In_str_in _ _ Hin) in Hcase. subst category'.
eexists _, _. split.
{ unfold step. rewrite Hpc, Hquit, Hk. fold agent.
  rewrite (bind_return _ _ _ _ _ Hrun). unfold print.
  rewrite (bind_return _ _ _ _ _ (emit_eq _ _)). reflexivity. }
cbn [system SupportSystem.set_current_agent SupportSystem.current_agent
     issue_type world_after heap log].
split.
{ apply awaiting_specialist_iff. split; [reflexivity|]. apply handoff_target_specialist. }
split; [now intros ->|]. split; [now intros ->|]. split; [now intros ->|].
split; [|exact Hheap].
rewrite Hlog, <- app_assoc. reflexivity.
Qed.

Lemma triage_routes_to_the_named_specialist_witness :
  exists s' w',
    step (says " Technical ") "  my app crashes  " first_session
      (world_with UserContext.default) = (Return s', w') /\
    SupportSystem.current_agent (system s') = technical /\
    heap w' 0 = UserContext.mk "Guest" false (Some "technical") ["my app crashes"].
Proof.
destruct (triage_routes_to_the_named_specialist (says " Technical ")
            "  my app crashes  " first_session (world_with UserContext.default)
            " Technical " eq_refl eq_refl eq_refl
            (or_intror (or_introl eq_refl)))
  as [s' [w' [Hstep [_ [_ [Ht [_ [_ Hheap]]]]]]]].
exists s', w'. split; [exact Hstep|]. split; [exact (Ht eq_refl)|].
rewrite Hheap. reflexivity.
Defined.

(** ** The session loop: what every line does *)

(** What one line does to the world besides entering the triage agent: the
    step returns, allocates nothing, only appends to the log, keeps the
    agents and the context object of the system, and enters the triage
    agent exactly when it uses up the pending handoff. *)
Lemma step_effect generate line s w :
  exists s' w' evs,
    step generate line s w = (Return s', w') /\
    fresh w' = fresh w /\
    log w' = (log w ++ evs)%list /\
    SupportSystem.context (system s') = SupportSystem.context (system s) /\
    triaged evs + pending s' = pending s.
Proof.
destruct (is_specialist (SupportSystem.current_agent (system s))) eqn:Hk.
- destruct (step_after_handoff generate line s w Hk) as [s' [evs [Hstep [Hsys [_ Htri]]]]].
  exists s', (world_after w evs), evs. split; [exact Hstep|].
  repeat split; [now rewrite Hsys|]. unfold pending. now rewrite Hsys, Htri.
- assert (SupportSystem.current_agent (system s) = triage) as Ht
    by (destruct (SupportSystem.current_agent (system s)); now try discriminate Hk).
  destruct (at_pc s) eqn:Hpc.
  + destruct (is_quit (strip line)) eqn:Hquit.
    * eexists _, _, _. split.
      { unfold step. rewrite Hpc, Hquit. apply leave_eq. }
      repeat split.
    * destruct (step_triage generate line s w Hpc Ht Hquit)
        as [category [w' [_ [_ [Hfresh [Hlog [_ Hstep]]]]]]].
      eexists _, _, _. split; [exact Hstep|].
      cbn [world_after fresh log system SupportSystem.set_current_agent
           SupportSystem.context].
      split; [exact Hfresh|]. split; [rewrite Hlog, <- app_assoc; reflexivity|].
      split; [reflexivity|].
      unfold pending. cbn [system SupportSystem.set_current_agent
                           SupportSystem.current_agent].
      rewrite Ht. pose proof (handoff_target_specialist category) as Hsp.
      destruct (handoff_target category); [discriminate Hsp | | |]; reflexivity.
  + unfold step. rewrite Hpc. destruct (is_no (lower (strip line))).
    * eexists _, _, _. split; [apply leave_eq|]. repeat split.
    * eexists _, _, _. split.
      { unfold print. rewrite (bind_return _ _ _ _ _ (emit_eq _ _)). reflexivity. }
      repeat split.
  + exists s, w, []. split; [unfold step; now rewrite Hpc|].
    rewrite app_nil_r. repeat split.
Qed.

Lemma run_effect turns : forall s w,
  exists s' w' evs,
    run turns s w = (Return s', w') /\
    fresh w' = fresh w /\
    log w' = (log w ++ evs)%list /\
    SupportSystem.context (system s') = SupportSystem.context (system s) /\
    triaged evs + pending s' = pending s.
Proof.
induction turns as [|[line generate] turns IH]; intros s w.
- exists s, w, []. rewrite app_nil_r. now repeat split.
- destruct (step_effect generate line s w)
    as [s1 [w1 [evs1 [Hstep [Hf1 [Hl1 [Hc1 Hp1]]]]]]].
  destruct (IH s1 w1) as [s2 [w2 [evs2 [Hrun [Hf2 [Hl2 [Hc2 Hp2]]]]]]].
  exists s2, w2, (evs1 ++ evs2)%list.
  cbn [run]. rewrite (bind_return _ _ _ _ _ Hstep).
  split; [exact Hrun|]. split; [congruence|].
  split; [rewrite Hl2, Hl1, app_assoc; reflexivity|].
  split; [congruence|].
  rewrite triaged_app. lia.
Qed.



(** X9.  In the session the main block starts, the triage agent is entered
    at most once: not at all while the session waits for its handoff, once
    from then on.  So the context holds at most one prior query and a
    summary shows a count of zero or one, however many queries the
    specialist handled. *)
Theorem triage_runs_at_most_once (premium : bool) (turns : list turn)
  (h : ref -> UserContext.t) (f : ref) :
  exists s w,
    boot premium turns (mk_world h f []) = (Return s, w) /\
    triaged (log w) = (if is_specialist (SupportSystem.current_agent (system s))
                       then 1 else 0) /\
    length (UserContext.previous_queries (heap w (SupportSystem.context (system s))))
    = triaged (log w) /\
    Forall (fun n => n <= 1) (summaries (log w)).
Proof.
destruct (main_counted premium h f) as [s0 [w0 [Hmain [Hc0 [Hs0 [Hlog0 _]]]]]].
destruct (run_counted turns s0 w0 Hc0) as [s [w [Hrun [_ [Hlen Hsum]]]]].
destruct (run_effect turns s0 w0) as [s' [w' [evs [Hrun' [_ [Hl [_ Hp]]]]]]].
rewrite Hrun in Hrun'. injection Hrun' as <- <-.
exists s, w. split.
{ unfold boot. now rewrite (bind_return _ _ _ _ _ Hmain). }
apply awaiting_triage_iff in Hs0 as [_ Hk0].
assert (triaged (log w) + pending s = 1) as Hone.
{ rewrite Hl, Hlog0, triaged_app. cbn [triaged]. unfold pending at 2 in Hp.
  rewrite Hk0 in Hp. lia. }
assert (triaged (log w)
        = if is_specialist (SupportSystem.current_agent (system s)) then 1 else 0) as Hn.
{ unfold pending in Hone.
  destruct (SupportSystem.current_agent (system s)); cbn [is_specialist agent_key_eqb negb];
    lia. }
split; [exact Hn|]. split; [exact Hlen|].
rewrite Hsum.
destruct (at_pc s); [apply Forall_nil | apply Forall_nil |].
apply Forall_cons; [|apply Forall_nil].
rewrite Hn. destruct (is_specialist _); lia.
Qed.

(** ** The shared context in a session *)

Lemma aligned_quiet premium s s' w evs :
  aligned premium s w -> system s' = system s -> aligned premium s' (world_after w evs).
Proof.
unfold aligned. intros H Hsys. rewrite Hsys. exact H.
Qed.

Lemma recorded_after_handoff (category : string) :
  In category (map value IssueType_members) ->
  recorded_category (handoff_target category) = Some category.
Proof.
simpl. intros [<-|[<-|[<-|[]]]]; reflexivity.
Qed.

Lemma step_aligned premium generate line s w :
  aligned premium s w ->
  exists s' w', step generate line s w = (Return s', w') /\ aligned premium s' w'.
Proof.
intros Ha.
destruct (is_specialist (SupportSystem.current_agent (system s))) eqn:Hk.
- destruct (step_after_handoff generate line s w Hk) as [s' [evs [Hstep [Hsys _]]]].
  exists s', (world_after w evs). split; [exact Hstep|].
  now apply (aligned_quiet premium s).
- assert (SupportSystem.current_agent (system s) = triage) as Ht
    by (destruct (SupportSystem.current_agent (system s)); now try discriminate Hk).
  destruct (at_pc s) eqn:Hpc.
  + destruct (is_quit (strip line)) eqn:Hquit.
    * eexists _, _. split.
      { unfold step. rewrite Hpc, Hquit. apply leave_eq. }
      now apply (aligned_quiet premium s).
    * destruct (step_triage generate line s w Hpc Ht Hquit)
        as [category [w' [_ [Hin [_ [_ [Hheap Hstep]]]]]]].
      eexists _, _. split; [exact Hstep|].
      destruct Ha as [Hbound [Hname [Hprem _]]]. unfold aligned.
      cbn [system SupportSystem.set_current_agent SupportSystem.agents
           SupportSystem.context SupportSystem.current_agent world_after heap].
      split; [exact Hbound|].
      rewrite Hheap. unfold bound_to. rewrite Hbound, Nat.eqb_refl.
      unfold triage_write. cbn.
      split; [exact Hname|]. split; [exact Hprem|].
      symmetry. now apply recorded_after_handoff.
  + unfold step. rewrite Hpc. destruct (is_no (lower (strip line))).
    * eexists _, _. split; [apply leave_eq|]. now apply (aligned_quiet premium s).
    * eexists _, _. split.
      { unfold print. rewrite (bind_return _ _ _ _ _ (emit_eq _ _)). reflexivity. }
      now apply (aligned_quiet premium s).
  + exists s, w. split; [unfold step; now rewrite Hpc | exact Ha].
Qed.

Lemma run_aligned premium turns : forall s w,
  aligned premium s w ->
  exists s' w', run turns s w = (Return s', w') /\ aligned premium s' w'.
Proof.
induction turns as [|[line generate] turns IH]; intros s w Ha.
- now exists s, w.
- destruct (step_aligned premium generate line s w Ha) as [s1 [w1 [Hstep Ha1]]].
  destruct (IH s1 w1 Ha1) as [s2 [w2 [Hrun Ha2]]].
  exists s2, w2. split; [|exact Ha2].
  cbn [run]. now rewrite (bind_return _ _ _ _ _ Hstep).
Qed.

Lemma main_aligned premium h f :
  exists s w, main premium (mk_world h f []) = (Return s, w) /\ aligned premium s w.
Proof.
eexists _, _. split; [reflexivity|].
unfold aligned. cbn. rewrite Nat.eqb_refl. now repeat split.
Qed.

(** X10.  In the session the main block starts, the four agents share one
    context object, and it stays as the session made it: the name and the
    premium flag of the main block, and the category of the specialist the
    session is bound to.  So whenever the session is bound to the technical
    agent that agent lists restart_service, its gate being open in every
    session that reaches it; and whenever it is bound to the billing agent
    that agent lists process_refund exactly when the main block set the
    premium flag. *)
Theorem session_context_stays_aligned (premium : bool) (turns : list turn)
  (h : ref -> UserContext.t) (f : ref) :
  exists s w,
    boot premium turns (mk_world h f []) = (Return s, w) /\
    aligned premium s w /\
    let k := SupportSystem.current_agent (system s) in
    let agent := SupportSystem.agents (system s) k in
    (k = technical ->
     In "restart_service" (eval (TechnicalAgent.get_available_tools agent) w [])) /\
    (k = billing ->
     (In "process_refund" (eval (BillingAgent.get_available_tools agent) w [])
      <-> premium = true)).
Proof.
destruct (main_aligned premium h f) as [s0 [w0 [Hmain Ha0]]].
destruct (run_aligned premium turns s0 w0 Ha0) as [s [w [Hrun Ha]]].
exists s, w. split.
{ unfold boot. now rewrite (bind_return _ _ _ _ _ Hmain). }
split; [exact Ha|].
destruct Ha as [Hbound [_ [Hprem Hcat]]]. cbv zeta.
set (k := SupportSystem.current_agent (system s)) in *.
split; intros Hk.
- rewrite (available_iff_enabled technical). split; [simpl; tauto|].
  cbn [is_tool_enabled_of].
  rewrite (technical_gate _ _ w (Hbound k)), Hcat, Hk. reflexivity.
- rewrite (available_iff_enabled billing). cbn [is_tool_enabled_of].
  rewrite (billing_gate _ _ w (Hbound k)), Hprem. simpl. tauto.
Qed.

(** ** The prompt that asks whether to go on *)

(** X11.  At the prompt that asks whether to go on, the answer is trimmed
    and lowercased: no, n, quit or exit end the session with the goodbye and
    the summary; any other answer, bye and the empty line included, prints
    the offer of further help and returns to the query prompt with the same
    system.  Neither way is an agent entered or the store touched, and the
    outcome is the same whatever the classifier would answer. *)
Theorem continue_prompt_decides (generate generate' : classifier) (line : string)
  (s : session) (w : world) :
  state_of s = AWAITING_CONTINUE ->
  step generate line s w = step generate' line s w /\
  (is_no (lower (strip line)) = true ->
   step generate line s w
   = (Return (mk_session (system s) Returned),
      world_after w [Printed Goodbye; Printed (summary_line (system s) w)])) /\
  (is_no (lower (strip line)) = false ->
   step generate line s w
   = (Return (mk_session (system s) AtQuery), world_after w [Printed HelpFurther])) /\
  is_no (lower (strip "bye")) = false /\
  is_no (lower (strip "")) = false.
Proof.
intros Hstate.
assert (at_pc s = AtContinue) as Hpc.
{ unfold state_of in Hstate. destruct (at_pc s); try discriminate Hstate; [|reflexivity].
  destruct (SupportSystem.current_agent (system s)); discriminate Hstate. }
unfold step. rewrite Hpc. split; [reflexivity|].
split; [|split; [|split; reflexivity]]; intros Hno; rewrite Hno.
- apply leave_eq.
- unfold print. now rewrite (bind_return _ _ _ _ _ (emit_eq _ _)).
Qed.

Lemma continue_prompt_decides_witness :
  step fails "  N " (mk_session (system billing_session) AtContinue)
    (world_with basic_user)
  = (Return (mk_session (system billing_session) Returned),
     world_after (world_with basic_user)
       [Printed Goodbye; Printed (Summary "Aamna" false (Some "billing") 1)]) /\
  step fails "bye" (mk_session (system billing_session) AtContinue)
    (world_with basic_user)
  = (Return billing_session, world_after (world_with basic_user) [Printed HelpFurther]).
Proof.
pose proof (continue_prompt_decides fails fails "  N "
              (mk_session (system billing_session) AtContinue) (world_with basic_user)
              eq_refl) as [_ [Hend _]].
pose proof (continue_prompt_decides fails fails "bye"
              (mk_session (system billing_session) AtContinue) (world_with basic_user)
              eq_refl) as [_ [_ [Hon _]]].
split; [exact (Hend eq_refl) | exact (Hon eq_refl)].
Defined.

(** ** What a turn takes from the classifier *)

Lemma try_generate_ext {A} (generate generate' : classifier) (p : string)
  (k : string -> M A) (h : exn -> M A) (w : world) :
  generate p = generate' p ->
  try_except (text <- generate_content generate p ;; k text) h w
  = try_except (text <- generate_content generate' p ;; k text) h w.
Proof.
intros H. unfold try_except, bind, generate_content. now rewrite H.
Qed.

Lemma bind_cong {A B} (m m' : M A) (k : A -> M B) (w : world) :
  m w = m' w -> bind m k w = bind m' k w.
Proof. intros H. unfold bind. now rewrite H. Qed.

Lemma specialist_depends_on_one_answer k self generate generate' query w :
  is_specialist k = true ->
  answer_to k self generate query w = answer_to k self generate' query w ->
  specialist_process_query k self generate query w
  = specialist_process_query k self generate' query w.
Proof.
intros Hk H. unfold answer_to in H.
rewrite !(specialist_process_query_shape _ _ _ _ _ Hk).
unfold specialist_body.
rewrite !(bind_return _ _ _ _ _ (emit_eq _ _)).
set (w1 := world_after w _).
rewrite !(bind_return _ _ _ _ _
            (reads_eval _ [] w1 (get_available_tools_of_reads k self))).
unfold w1 at 1 3. rewrite get_available_tools_of_frame.
now apply try_generate_ext.
Qed.

Lemma triage_depends_on_one_answer self generate generate' query w :
  generate (TriageAgent.prompt query) = generate' (TriageAgent.prompt query) ->
  TriageAgent.process_query self generate query w
  = TriageAgent.process_query self generate' query w.
Proof.
intros H. unfold TriageAgent.process_query.
rewrite !(bind_return _ _ _ _ _ (emit_eq _ _)).
apply bind_cong. now apply try_generate_ext.
Qed.

(** X12.  What a line does depends on the classifier only through its
    answer to one prompt, the one built from the trimmed line: the triage
    prompt before the handoff, the bound specialist's prompt, with the tools
    it lists in the current state, after it.  Two classifiers that answer
    that one prompt alike make the line do the same, whatever else they
    would answer; a quit word, and any line at the prompt that asks whether
    to go on, does the same under every classifier. *)
Theorem turn_depends_on_one_answer (generate generate' : classifier) (line : string)
  (s : session) (w : world) :
  (generate (prompt_sent s line w) = generate' (prompt_sent s line w) ->
   step generate line s w = step generate' line s w) /\
  (at_pc s <> AtQuery \/ is_quit (strip line) = true ->
   step generate line s w = step generate' line s w).
Proof.
split.
- intros H. unfold step, prompt_sent in *.
  destruct (at_pc s); try reflexivity.
  destruct (is_quit (strip line)); [reflexivity|].
  destruct (SupportSystem.current_agent (system s)) eqn:Ek.
  + apply bind_cong. now apply triage_depends_on_one_answer.
  + apply bind_cong. now apply (specialist_depends_on_one_answer billing).
  + apply bind_cong. now apply (specialist_depends_on_one_answer technical).
  + apply bind_cong. now apply (specialist_depends_on_one_answer general).
- intros H. unfold step.
  destruct (at_pc s); try reflexivity.
  destruct H as [H|H]; [now contradiction H|]. now rewrite H.
Qed.

Lemma turn_depends_on_one_answer_witness :
  step (fun p => if String.eqb p (prompt_sent billing_session "refund please"
                                    (world_with premium_user))
                 then Return "TOOL:process_refund" else Raise (mk_exn "KeyError" p))
    "refund please" billing_session (world_with premium_user)
  = step (says "TOOL:process_refund") "refund please" billing_session
      (world_with premium_user).
Proof.
apply (proj1 (turn_depends_on_one_answer _ (says "TOOL:process_refund")
                "refund please" billing_session (world_with premium_user))).
now rewrite String.eqb_refl.
Defined.

(** ** What the session records and reports *)

(** X13.  In the session the main block starts, a first line that is no
    quit word is the one query the context ever records: from then on,
    whatever follows, the prior queries are that trimmed line alone, the
    session is bound to a specialist, and the log shows the triage agent
    entered first and once, then only that specialist. *)
Theorem only_the_first_query_is_recorded (premium : bool) (line : string)
  (generate : classifier) (rest : list turn) (h : ref -> UserContext.t) (f : ref) :
  is_quit (strip line) = false ->
  exists s w,
    boot premium ((line, generate) :: rest) (mk_world h f []) = (Return s, w) /\
    UserContext.previous_queries (heap w (SupportSystem.context (system s)))
    = [strip line] /\
    is_specialist (SupportSystem.current_agent (system s)) = true /\
    exists evs,
      entered (log w) = triage :: evs /\
      Forall (fun a => a = SupportSystem.current_agent (system s)) evs.
Proof.
intros Hquit.
destruct (main_counted premium h f) as [s0 [w0 [Hmain [[Hctx [Hlen _]] [Hs0 [Hlog0 _]]]]]].
apply awaiting_triage_iff in Hs0 as [Hpc Hk].
destruct (step_triage generate line s0 w0 Hpc Hk Hquit)
  as [category [w1 [_ [_ [_ [Hlog1 [Hheap Hstep]]]]]]].
pose proof (handoff_target_specialist category) as Hsp.
match type of Hstep with _ = (Return ?s1, ?w1') =>
  destruct (run_after_handoff rest s1 w1' Hsp) as [s [evs [Hrun [Hsys [Hent _]]]]]
end.
eexists _, _. split.
{ unfold boot. rewrite (bind_return _ _ _ _ _ Hmain). cbn [run].
  rewrite (bind_return _ _ _ _ _ Hstep). exact Hrun. }
rewrite Hsys.
cbn [system SupportSystem.set_current_agent SupportSystem.context
     SupportSystem.current_agent world_after heap log] in *.
split; [|split; [exact Hsp|]].
- rewrite Hheap. unfold bound_to. rewrite Hctx, Nat.eqb_refl.
  unfold triage_write. cbn [UserContext.previous_queries
    UserContext.append_previous_queries UserContext.set_issue_type].
  rewrite Hlog0 in Hlen. cbn [triaged] in Hlen.
  destruct (UserContext.previous_queries _); [reflexivity | discriminate Hlen].
- exists (entered evs). split; [|exact Hent].
  rewrite Hlog1, Hlog0, <- !app_assoc. reflexivity.
Qed.

Lemma only_the_first_query_is_recorded_witness :
  exists s w,
    boot false [("  my invoice is wrong ", says "Billing");
                ("explain it", fails); ("yes", fails);
                ("and my app crashes", says "TOOL:explain_charges")] empty_world
    = (Return s, w) /\
    UserContext.previous_queries (heap w (SupportSystem.context (system s)))
    = ["my invoice is wrong"].
Proof.
destruct (only_the_first_query_is_recorded false "  my invoice is wrong "
            (says "Billing")
            [("explain it", fails); ("yes", fails);
             ("and my app crashes", says "TOOL:explain_charges")]
            (fun _ => UserContext.default) 0 eq_refl) as [s [w [Hrun [Hq _]]]].
exists s, w. split; [exact Hrun | exact Hq].
Defined.

(** Once [start] has returned, the last two lines printed are the goodbye
    and the summary of the context as it then is. *)
Lemma step_ended generate line s w :
  (at_pc s = Returned ->
   exists l, log w = (l ++ [Printed Goodbye; Printed (summary_line (system s) w)])%list) ->
  exists s' w',
    step generate line s w = (Return s', w') /\
    (at_pc s' = Returned ->
     exists l, log w' = (l ++ [Printed Goodbye; Printed (summary_line (system s') w')])%list).
Proof.
intros Hended.
assert (exists l,
          log (world_after w [Printed Goodbye; Printed (summary_line (system s) w)])
          = (l ++ [Printed Goodbye;
                   Printed (summary_line (system s)
                              (world_after w [Printed Goodbye;
                                              Printed (summary_line (system s) w)]))])%list)
  as Hleave by now exists (log w).
destruct (at_pc s) eqn:Hpc.
- destruct (is_quit (strip line)) eqn:Hquit.
  + eexists _, _. split.
    { unfold step. rewrite Hpc, Hquit. apply leave_eq. }
    intros _. exact Hleave.
  + destruct (is_specialist (SupportSystem.current_agent (system s))) eqn:Hk.
    * destruct (step_specialist generate line s w Hpc Hk Hquit)
        as [response [evs [_ [_ Hstep]]]].
      eexists _, _. split; [exact Hstep|]. discriminate.
    * assert (SupportSystem.current_agent (system s) = triage) as Ht
        by (destruct (SupportSystem.current_agent (system s)); now try discriminate Hk).
      destruct (step_triage generate line s w Hpc Ht Hquit)
        as [category [w' [_ [_ [_ [_ [_ Hstep]]]]]]].
      eexists _, _. split; [exact Hstep|]. discriminate.
- unfold step. rewrite Hpc. destruct (is_no (lower (strip line))).
  + eexists _, _. split; [apply leave_eq|]. intros _. exact Hleave.
  + eexists _, _. split.
    { unfold print. rewrite (bind_return _ _ _ _ _ (emit_eq _ _)). reflexivity. }
    discriminate.
- exists s, w. split; [unfold step; now rewrite Hpc | intros _; now apply Hended].
Qed.

Lemma run_ended turns : forall s w,
  (at_pc s = Returned ->
   exists l, log w = (l ++ [Printed Goodbye; Printed (summary_line (system s) w)])%list) ->
  exists s' w',
    run turns s w = (Return s', w') /\
    (at_pc s' = Returned ->
     exists l, log w' = (l ++ [Printed Goodbye; Printed (summary_line (system s') w')])%list).
Proof.
induction turns as [|[line generate] turns IH]; intros s w H.
- now exists s, w.
- destruct (step_ended generate line s w H) as [s1 [w1 [Hstep H1]]].
  destruct (IH s1 w1 H1) as [s2 [w2 [Hrun H2]]].
  exists s2, w2. split; [|exact H2].
  cbn [run]. now rewrite (bind_return _ _ _ _ _ Hstep).
Qed.

(** X14.  The session the main block starts prints the welcome first; and
    when it has ended, the last two things printed are the goodbye and one
    summary, which shows the name and premium flag the main block set, the
    category of the specialist the session was handed to (none if it ended
    before any handoff) and a query count of one after a handoff, zero
    before. *)
Theorem summary_reports_the_session (premium : bool) (turns : list turn)
  (h : ref -> UserContext.t) (f : ref) :
  exists s w,
    boot premium turns (mk_world h f []) = (Return s, w) /\
    (exists evs, log w = Printed Welcome :: evs) /\
    (state_of s = ENDED ->
     let k := SupportSystem.current_agent (system s) in
     exists l,
       log w = (l ++ [Printed Goodbye;
                      Printed (Summary "Aamna" premium (recorded_category k)
                                 (if is_specialist k then 1 else 0))])%list).
Proof.
destruct (main_counted premium h f) as [s0 [w0 [Hmain [Hc0 [Hs0 [Hlog0 _]]]]]].
destruct (main_aligned premium h f) as [s0' [w0' [Hmain' Ha0]]].
rewrite Hmain in Hmain'. injection Hmain' as <- <-.
apply awaiting_triage_iff in Hs0 as [Hpc0 Hk0].
destruct (run_counted turns s0 w0 Hc0) as [s [w [Hrun [_ [Hlen _]]]]].
destruct (run_aligned premium turns s0 w0 Ha0) as [s1 [w1 [Hrun1 Ha]]].
rewrite Hrun in Hrun1. injection Hrun1 as <- <-.
destruct (run_effect turns s0 w0) as [s2 [w2 [evs [Hrun2 [_ [Hl [_ Hp]]]]]]].
rewrite Hrun in Hrun2. injection Hrun2 as <- <-.
destruct (run_ended turns s0 w0) as [s3 [w3 [Hrun3 Hend]]].
{ rewrite Hpc0. discriminate. }
rewrite Hrun in Hrun3. injection Hrun3 as <- <-.
exists s, w. split.
{ unfold boot. now rewrite (bind_return _ _ _ _ _ Hmain). }
split.
{ exists evs. now rewrite Hl, Hlog0. }
intros Hstate. cbv zeta.
assert (at_pc s = Returned) as Hpc.
{ unfold state_of in Hstate. destruct (at_pc s); try discriminate Hstate; [|reflexivity].
  destruct (SupportSystem.current_agent (system s)); discriminate Hstate. }
destruct (Hend Hpc) as [l Hlast]. exists l. rewrite Hlast.
destruct Ha as [_ [Hname [Hprem Hcat]]].
unfold summary_line. rewrite Hname, Hprem, Hcat, Hlen.
assert (triaged (log w) + pending s = 1) as Hone.
{ rewrite Hl, Hlog0, triaged_app. cbn [triaged]. unfold pending at 2 in Hp.
  rewrite Hk0 in Hp. lia. }
unfold pending in Hone.
destruct (SupportSystem.current_agent (system s));
  cbn [is_specialist agent_key_eqb negb];
  repeat f_equal; lia.
Qed.

Lemma summary_reports_the_session_witness :
  exists s w l,
    boot true [("the app is down", says "technical");
               ("restart it", says "TOOL:restart_service"); ("no", fails)] empty_world
    = (Return s, w) /\
    log w = (l ++ [Printed Goodbye;
                   Printed (Summary "Aamna" true (Some "technical") 1)])%list.
Proof.
destruct (summary_reports_the_session true
            [("the app is down", says "technical");
             ("restart it", says "TOOL:restart_service"); ("no", fails)]
            (fun _ => UserContext.default) 0) as [s [w [Hrun [_ Hend]]]].
change (mk_world (fun _ => UserContext.default) 0 []) with empty_world in Hrun.
pose proof Hrun as Hrun'.
vm_compute in Hrun'. injection Hrun' as <- <-.
destruct (Hend eq_refl) as [l Hl].
eexists _, _, l. split; [exact Hrun | exact Hl].
Defined.
